(** * PECO-Buddy: extraction of PECO annotations and ontology enrichment

    A shallow embedding of [script.py].  Python values are modelled by one
    dynamically typed universe ([pyvalue]); strings are sequences of Unicode
    code points; dictionaries are insertion-ordered association lists with
    unique keys; raised exceptions are an explicit [result] type.  The
    concept records mutated in place by [rank_ontology_matches_by_distance]
    live in a store addressed by object identity, so that a record listed
    twice is one object.  The HTTP service is an oracle indexed by the
    number of the call. *)

From Stdlib Require Import ZArith NArith List String Ascii Lia Permutation Sorted.
From Stdlib Require Import DecimalString.
From stdpp Require Import base tactics option list.
Import ListNotations.

Set Warnings "-register-all".
Local Open Scope Z_scope.

(** ** Python strings *)

Module PyStr.

(** A [str] is a sequence of Unicode code points. *)
Definition char := N.
Definition pystr := list char.

(** A literal of the source, written as in the source. *)
Definition lit (s : string) : pystr :=
  List.map N_of_ascii (list_ascii_of_string s).
Arguments lit s%_string.

Definition str_eqb (a b : pystr) : bool := bool_decide (a = b).

(** [str.isspace] on one code point: the characters [str.strip()] removes. *)
Definition isspace (c : char) : bool :=
  ((9 <=? c) && (c <=? 13) || (28 <=? c) && (c <=? 32)
   || (c =? 133) || (c =? 160) || (c =? 5760)
   || (8192 <=? c) && (c <=? 8202)
   || (c =? 8232) || (c =? 8233) || (c =? 8239) || (c =? 8287)
   || (c =? 12288))%N.

Fixpoint lstrip (s : pystr) : pystr :=
  match s with
  | c :: t => if isspace c then lstrip t else s
  | [] => []
  end.

(** [s.strip()] *)
Definition strip (s : pystr) : pystr := rev (lstrip (rev (lstrip s))).

Fixpoint startswith (p s : pystr) : bool :=
  match p, s with
  | [], _ => true
  | _ :: _, [] => false
  | a :: p', b :: s' => (a =? b)%N && startswith p' s'
  end.

(** [needle in hay] on strings: substring test. *)
Fixpoint contains (needle hay : pystr) : bool :=
  startswith needle hay ||
  match hay with
  | [] => false
  | _ :: t => contains needle t
  end.

(** [str(z)] for an [int]. *)
Definition str_of_Z (z : Z) : pystr := lit (NilZero.string_of_int (Z.to_int z)).

Definition hexdigit (n : N) : char :=
  (if n <? 10 then 48 + n else 55 + n)%N.

(** ['%02X' % n] for a byte. *)
Definition hex2 (n : N) : pystr := [hexdigit (n / 16)%N; hexdigit (n mod 16)%N].

End PyStr.
Export PyStr.

(** ** Python values, dictionaries and exceptions *)

Module Py.

(** Insertion-ordered dictionary with string keys. *)
Definition dict (V : Type) := list (pystr * V).

Section Dict.
Context {V : Type}.

Fixpoint dict_get (k : pystr) (d : dict V) : option V :=
  match d with
  | [] => None
  | (k', v) :: t => if str_eqb k k' then Some v else dict_get k t
  end.

(** [d[k] = v]: an existing key keeps its position, a new one goes last. *)
Fixpoint dict_set (k : pystr) (v : V) (d : dict V) : dict V :=
  match d with
  | [] => [(k, v)]
  | (k', v') :: t =>
      if str_eqb k k' then (k', v) :: t else (k', v') :: dict_set k v t
  end.

(** [k in d] *)
Definition dict_mem (k : pystr) (d : dict V) : bool :=
  match dict_get k d with Some _ => true | None => false end.

Definition dict_keys (d : dict V) : list pystr := List.map fst d.

(** [bool(d)] *)
Definition dict_truthy (d : dict V) : bool :=
  match d with [] => false | _ :: _ => true end.
End Dict.

(** The values the program handles: what [json] parses and dumps, which
    is also what the extractor and the enrichment loop build. *)
Inductive pyvalue :=
| PNone
| PBool (b : bool)
| PInt (z : Z)
| PFloat (repr : pystr)
| PStr (s : pystr)
| PList (l : list pyvalue)
| PDict (d : list (pystr * pyvalue)).

Abbreviation pydict := (dict pyvalue).

Inductive exn :=
| KeyError (k : pystr)
| IndexError
| TypeError
| AttributeError
| UnicodeEncodeError.

Inductive result (A : Type) :=
| Ok (a : A)
| Raise (e : exn).
Arguments Ok {A} a.
Arguments Raise {A} e.

#[global] Instance result_ret : MRet result := fun A a => Ok a.
#[global] Instance result_bind : MBind result := fun A B f m =>
  match m with
  | Ok a => f a
  | Raise e => Raise e
  end.

(** Run [f] on each element in order, stopping at the first exception. *)
Fixpoint mapM {A B} (f : A -> result B) (l : list A) : result (list B) :=
  match l with
  | [] => Ok []
  | a :: t => b ← f a; bs ← mapM f t; Ok (b :: bs)
  end.

(** [d[k]] on a dictionary *)
Definition getitem {V} (d : dict V) (k : pystr) : result V :=
  match dict_get k d with
  | Some v => Ok v
  | None => Raise (KeyError k)
  end.

(** [v.get(k, default)]: only a [dict] has the method. *)
Definition py_get (v : pyvalue) (k : pystr) (default : pyvalue) : result pyvalue :=
  match v with
  | PDict d => Ok (match dict_get k d with Some x => x | None => default end)
  | _ => Raise AttributeError
  end.

(** [for x in v]: the elements of a list, the keys of a dict, the
    characters of a string; anything else is not iterable. *)
Definition py_iter (v : pyvalue) : result (list pyvalue) :=
  match v with
  | PList l => Ok l
  | PDict d => Ok (List.map (fun kv => PStr (fst kv)) d)
  | PStr s => Ok (List.map (fun c => PStr [c]) s)
  | _ => Raise TypeError
  end.

(** [v.items()] *)
Definition py_items (v : pyvalue) : result (list (pystr * pyvalue)) :=
  match v with
  | PDict d => Ok d
  | _ => Raise AttributeError
  end.

End Py.
Export Py.

(** ** The parsed document, as [python-docx] exposes it *)

Module Docx.

(** A member of [WD_COLOR_INDEX]: an [int]-valued enumeration member.  Its
    [str] is ["NAME (value)"] and, being an [int], it is falsy at 0. *)
Record color_index := { ci_name : pystr; ci_value : Z }.

(** [RGBColor]: a 3-tuple of bytes; its [str] is six hex digits. *)
Record RGBColor := { red : N; green : N; blue : N }.

Record ColorFormat := { rgb : option RGBColor }.

Record Font := {
  highlight_color : option color_index;
  color : option ColorFormat
}.

Record Run := { run_text : pystr; font : Font }.
Record Paragraph := { runs : list Run }.
Record Cell := { cell_text : pystr; paragraphs : list Paragraph }.
Record Row := { cells : list Cell }.
Record Table := { rows : list Row }.
Record Document := { tables : list Table }.

(** What [get_highlight_color] hands back when it is not [None]. *)
Inductive color_value :=
| Highlight (i : color_index)
| Rgb (c : RGBColor).

(** [bool(i)] for an enumeration member mixed with [int]. *)
Definition index_truthy (i : color_index) : bool := negb (ci_value i =? 0).

(** [bool(color)] for the result of [get_highlight_color]; a tuple of
    three components is never empty. *)
Definition color_truthy (c : option color_value) : bool :=
  match c with
  | None => false
  | Some (Highlight i) => index_truthy i
  | Some (Rgb _) => true
  end.

(** [str(color)] *)
Definition str_color (c : option color_value) : pystr :=
  match c with
  | None => lit "None"
  | Some (Highlight i) => ci_name i ++ lit " (" ++ str_of_Z (ci_value i) ++ lit ")"
  | Some (Rgb c) => hex2 (red c) ++ hex2 (green c) ++ hex2 (blue c)
  end.

End Docx.
Export Docx.

(** ** Extraction of the annotations from the tables *)

Definition get_highlight_color (run : Run) : option color_value :=
  match highlight_color (font run) with
  | Some i =>
      if index_truthy i then Some (Highlight i)
      else match color (font run) with
           | Some cf => match rgb cf with Some c => Some (Rgb c) | None => None end
           | None => None
           end
  | None =>
      match color (font run) with
      | Some cf => match rgb cf with Some c => Some (Rgb c) | None => None end
      | None => None
      end
  end.

Definition annotation_map : dict pystr :=
  [ (lit "PINK (5)", lit "Population");
    (lit "BRIGHT_GREEN (4)", lit "Exposure");
    (lit "TURQUOISE (3)", lit "Comparator");
    (lit "YELLOW (7)", lit "Outcome") ].

(** [bool(text)] *)
Definition str_truthy (s : pystr) : bool :=
  match s with [] => false | _ :: _ => true end.

(** The body of [for run in para.runs], on the pair
    [(color_text_map, statement)]. *)
Definition peco_run (acc : dict (list pystr) * pystr) (run : Run)
  : dict (list pystr) * pystr :=
  let '(color_text_map, statement) := acc in
  let color := get_highlight_color run in
  let text := strip (run_text run) in
  let color_text_map :=
    if color_truthy color && str_truthy text then
      let color_key := str_color color in
      match dict_get color_key annotation_map with
      | Some color_key =>
          let color_text_map :=
            if dict_mem color_key color_text_map then color_text_map
            else dict_set color_key [] color_text_map in
          dict_set color_key
            (default [] (dict_get color_key color_text_map) ++ [text])
            color_text_map
      | None => color_text_map
      end
    else color_text_map in
  (color_text_map, statement ++ lit "" ++ text ++ lit " ").

Definition peco_paragraph (acc : dict (list pystr) * pystr) (para : Paragraph) :=
  fold_left peco_run (runs para) acc.

(** The two loops over [peco_cell.paragraphs] and their runs. *)
Definition peco_cell_scan (peco_cell : Cell) : dict (list pystr) * pystr :=
  fold_left peco_paragraph (paragraphs peco_cell) ([], []).

(** [color_text_map] as the value stored under ["peco_elements"]. *)
Definition elements_value (m : dict (list pystr)) : pyvalue :=
  PDict (List.map (fun kv => (fst kv, PList (List.map PStr (snd kv)))) m).

(** One metadata row: [if label in row.cells[0].text.strip(): d[field] = ...] *)
Definition route (label field : pystr) (key : pystr) (value : pyvalue)
    (table_dict : pydict) : pydict :=
  if contains label key then dict_set field value table_dict else table_dict.

(** The body of [for row in table.rows]. *)
Definition scan_row (table_dict : pydict) (row : Row) : result pydict :=
  match cells row with
  | [] => Raise IndexError
  | first :: _ =>
      let last_cell := List.last (cells row) first in
      let key := strip (cell_text first) in
      let value := PStr (strip (cell_text last_cell)) in
      let d := route (lit "Title of manuscript") (lit "doc_title") key value table_dict in
      let d := route (lit "Last name of first author") (lit "doc_lastauthorname") key value d in
      let d := route (lit "Year of publication") (lit "doc_year") key value d in
      let d := route (lit "URL of HTML manuscript") (lit "doc_url") key value d in
      let d := route (lit "Section PECO statement is in") (lit "doc_peco_section") key value d in
      let d := route (lit "Annotator comments") (lit "doc_annotator_comments") key value d in
      let d :=
        if contains (lit "PECO statement") key then
          let '(color_text_map, statement) := peco_cell_scan last_cell in
          dict_set (lit "peco_statement") (PStr statement)
            (dict_set (lit "peco_elements") (elements_value color_text_map) d)
        else d in
      Ok d
  end.

Fixpoint scan_rows (table_dict : pydict) (rs : list Row) : result pydict :=
  match rs with
  | [] => Ok table_dict
  | row :: rest => d ← scan_row table_dict row; scan_rows d rest
  end.

(** The body of [for table in doc.tables], on [tables_data]. *)
Fixpoint scan_tables (tables_data : list pydict) (ts : list Table)
  : result (list pydict) :=
  match ts with
  | [] => Ok tables_data
  | table :: rest =>
      table_dict ← scan_rows [] (rows table);
      scan_tables
        (if dict_truthy table_dict then tables_data ++ [table_dict] else tables_data)
        rest
  end.

Definition extract_peco_highlights_from_tables (doc : Document)
  : result (list pydict) :=
  scan_tables [] (tables doc).

(** ** Percent-encoding ([urllib.parse.quote]) *)

Module Quote.

(** [s.encode('utf-8', 'strict')] on one code point; a surrogate cannot
    be encoded. *)
Definition utf8 (c : char) : result (list N) :=
  (if c <? 128 then Ok [c]
   else if c <? 2048 then Ok [192 + c / 64; 128 + c mod 64]
   else if c <? 65536 then
     if (55296 <=? c) && (c <=? 57343) then Raise UnicodeEncodeError
     else Ok [224 + c / 4096; 128 + (c / 64) mod 64; 128 + c mod 64]
   else if c <? 1114112 then
     Ok [240 + c / 262144; 128 + (c / 4096) mod 64;
         128 + (c / 64) mod 64; 128 + c mod 64]
   else Raise UnicodeEncodeError)%N.

(** Letters, digits and [_.-~] are never quoted. *)
Definition always_safe (b : N) : bool :=
  ((65 <=? b) && (b <=? 90) || (97 <=? b) && (b <=? 122)
   || (48 <=? b) && (b <=? 57)
   || (b =? 95) || (b =? 46) || (b =? 45) || (b =? 126))%N.

Definition quote_byte (safe : pystr) (b : N) : pystr :=
  if always_safe b || existsb (N.eqb b) safe then [b]
  else 37%N :: hex2 b.

(** [quote(v, safe=safe)]: a [str] is encoded and quoted; any other value
    of the universe is rejected by [quote_from_bytes]. *)
Definition quote (v : pyvalue) (safe : pystr) : result pystr :=
  match v with
  | PStr s =>
      bs ← mapM utf8 s;
      Ok (List.concat (List.map (quote_byte safe) (List.concat bs)))
  | _ => Raise TypeError
  end.

End Quote.
Export Quote.

(** ** The ontology lookup service *)

Module Http.

(** The two addresses the program requests.  The ancestors address is an
    f-string of the ontology name and the twice-quoted IRI. *)
Inductive url :=
| SearchUrl
| AncestorsUrl (ontology : pyvalue) (iri_encoded : pystr).

(** What [requests.get] does: raise a [RequestException] of its own, or
    hand back a response with a status and a body that may not parse. *)
Inductive http_outcome :=
| Failed
| Response (status_code : Z) (body : option pyvalue).

(** The [requests.RequestException]s the two [try] blocks can see: the
    one [requests.get] raised, the [HTTPError] of [raise_for_status()],
    and the [JSONDecodeError] of [json()] on a body that is not JSON. *)
Inductive RequestException :=
| TransportError
| HTTPError (status_code : Z)
| JSONDecodeError.

(** [response.raise_for_status()] raises for 4xx and 5xx. *)
Definition bad_status (status_code : Z) : bool :=
  (400 <=? status_code) && (status_code <? 600).

End Http.
Export Http.

(** What [get_term_ancestors] returns: the list, or the exception object
    it caught. *)
Inductive ancestors_ret :=
| AncList (l : list pyvalue)
| AncError (e : RequestException).

Definition concept_of (term_info : pyvalue) : result pydict :=
  label ← py_get term_info (lit "label") (PStr (lit "No Label"));
  iri ← py_get term_info (lit "iri") (PStr (lit "No IRI"));
  description ← py_get term_info (lit "description") (PStr (lit "No Description"));
  ontology_name ← py_get term_info (lit "ontology_name") (PStr (lit "No Ontology Name"));
  short_form ← py_get term_info (lit "short_form") (PStr (lit "No Short Form"));
  Ok [ (lit "label", label);
       (lit "iri", iri);
       (lit "description", description);
       (lit "ontology_name", ontology_name);
       (lit "short_form", short_form) ].

Section Service.

(** The service: the outcome of the [n]-th request of the run. *)
Variable http_get : nat -> url -> pydict -> http_outcome.
(** [json.dumps(_, indent=2)] *)
Variable json_dumps : pyvalue -> pystr.

(** The first three statements of both [try] blocks: the request,
    [raise_for_status()] and [json()]. *)
Definition http_json (n : nat) (u : url) (params : pydict)
  : RequestException + pyvalue :=
  match http_get n u params with
  | Failed => inl TransportError
  | Response status_code body =>
      if bad_status status_code then inl (HTTPError status_code)
      else match body with
           | None => inl JSONDecodeError
           | Some v => inr v
           end
  end.

Definition search_params (term : pyvalue) (numresults : Z) (ontology : pyvalue)
  : pydict :=
  let params := [ (lit "q", term); (lit "rows", PInt numresults) ] in
  match ontology with
  | PNone => params
  | _ => dict_set (lit "ontology") ontology params
  end.

(** The pair [(jsonresults, ontology_matches)], or [None] when the
    [except] branch was taken: it prints and falls off the end. *)
Definition retrieve_ontology_matches (n : nat) (term : pyvalue)
    (numresults : Z) (ontology : pyvalue)
  : result (option (pystr * list pydict)) :=
  match http_json n SearchUrl (search_params term numresults ontology) with
  | inr results =>
      let jsonresults := json_dumps results in
      response ← py_get results (lit "response") (PDict []);
      docs ← py_get response (lit "docs") (PList []);
      term_infos ← py_iter docs;
      ontology_matches ← mapM concept_of term_infos;
      Ok (Some (jsonresults, ontology_matches))
  | inl e => Ok None
  end.

Definition get_term_ancestors (n : nat) (ontology iri : pyvalue)
  : result ancestors_ret :=
  inner ← quote iri (lit "");
  iri_encoded ← quote (PStr inner) (lit "/");
  match http_json n (AncestorsUrl ontology iri_encoded)
          [ (lit "lang", PStr (lit "en")) ] with
  | inr result =>
      embedded ← py_get result (lit "_embedded") (PDict []);
      terms ← py_get embedded (lit "terms") (PList []);
      ancestors ← py_iter terms;
      Ok (AncList ancestors)
  | inl e => Ok (AncError e)
  end.

End Service.

(** ** Ranking by distance from the root *)

(** Concept records are objects mutated in place: the list holds
    references, the store maps each reference to the record's fields. *)
Definition loc := nat.
Definition store := loc -> pydict.

(** [σ(m)[k] = v] *)
Definition setitem (σ : store) (m : loc) (k : pystr) (v : pyvalue) : store :=
  fun m' => if Nat.eqb m' m then dict_set k v (σ m) else σ m'.

(** [len(ancestors)]: the exception object handed back by a failed fetch
    has no length. *)
Definition py_len (a : ancestors_ret) : result Z :=
  match a with
  | AncList l => Ok (Z.of_nat (length l))
  | AncError _ => Raise TypeError
  end.

(** [list.sort(key=...)]: the keys are computed once, then the list is
    sorted by them, equal keys keeping their order. *)
Fixpoint insert_by_key {A} (x : Z * A) (l : list (Z * A)) : list (Z * A) :=
  match l with
  | [] => [x]
  | y :: t => if fst x <=? fst y then x :: y :: t else y :: insert_by_key x t
  end.

Fixpoint sort_by_key {A} (l : list (Z * A)) : list (Z * A) :=
  match l with
  | [] => []
  | x :: t => insert_by_key x (sort_by_key t)
  end.

(** [x['distance_from_root']], an [int] once the loop has run. *)
Definition distance_key (σ : store) (x : loc) : result (Z * loc) :=
  v ← getitem (σ x) (lit "distance_from_root");
  match v with
  | PInt z => Ok (z, x)
  | _ => Raise TypeError
  end.

Section Ranker.

Variable http_get : nat -> url -> pydict -> http_outcome.

(** The [for] loop; [n] counts the requests made so far. *)
Fixpoint rank_loop (n : nat) (σ : store) (ontology_matches : list loc)
    (matches_with_metadata : list loc) : result (store * list loc) :=
  match ontology_matches with
  | [] => Ok (σ, matches_with_metadata)
  | m :: rest =>
      iri ← getitem (σ m) (lit "iri");
      ontology ← getitem (σ m) (lit "ontology_name");
      ancestors ← get_term_ancestors http_get n ontology iri;
      _ ← py_len ancestors;
      match ancestors with
      | AncError _ => Raise TypeError
      | AncList l =>
          let σ := setitem σ m (lit "ancestors") (PList l) in
          d ← py_len ancestors;
          let σ := setitem σ m (lit "distance_from_root") (PInt d) in
          rank_loop (S n) σ rest (matches_with_metadata ++ [m])
      end
  end.

Definition rank_ontology_matches_by_distance (n : nat) (σ : store)
    (ontology_matches : list loc) : result (store * list loc) :=
  '(σ, matches_with_metadata) ← rank_loop n σ ontology_matches [];
  keyed ← mapM (distance_key σ) matches_with_metadata;
  Ok (σ, List.map snd (sort_by_key keyed)).

End Ranker.

(** ** The enrichment loop of the script *)

Definition NUMRESULTS : Z := 5.

(** [annotation_d["peco_elements"][peco_element].append(entry)] *)
Definition append_element (annotation_d : pydict) (peco_element : pystr)
    (entry : pyvalue) : result pydict :=
  elements ← getitem annotation_d (lit "peco_elements");
  match elements with
  | PDict elements =>
      current_elements ← getitem elements peco_element;
      match current_elements with
      | PList l =>
          Ok (dict_set (lit "peco_elements")
                (PDict (dict_set peco_element (PList (l ++ [entry])) elements))
                annotation_d)
      | _ => Raise AttributeError
      end
  | _ => Raise TypeError
  end.

Section Enrichment.

Variable http_get : nat -> url -> pydict -> http_outcome.
Variable json_dumps : pyvalue -> pystr.

(** [for text in el_texts]; unpacking [None] into two names fails. *)
Fixpoint enrich_texts (n : nat) (annotation_d : pydict) (peco_element : pystr)
    (el_texts : list pyvalue) : result (pydict * nat) :=
  match el_texts with
  | [] => Ok (annotation_d, n)
  | text :: rest =>
      r ← retrieve_ontology_matches http_get json_dumps n text NUMRESULTS PNone;
      match r with
      | None => Raise TypeError
      | Some (jsonresults, ontology_matches) =>
          annotation_d ← append_element annotation_d peco_element
            (PDict [ (lit "text", text);
                     (lit "matches", PList (List.map PDict ontology_matches)) ]);
          enrich_texts (S n) annotation_d peco_element rest
      end
  end.

(** [for peco_element, el_texts in annotation["peco_elements"].items()] *)
Fixpoint enrich_elements (n : nat) (annotation_d : pydict)
    (items : list (pystr * pyvalue)) : result (pydict * nat) :=
  match items with
  | [] => Ok (annotation_d, n)
  | (peco_element, el_texts) :: rest =>
      texts ← py_iter el_texts;
      '(annotation_d, n) ← enrich_texts n annotation_d peco_element texts;
      enrich_elements n annotation_d rest
  end.

(** The body of [for annotation in annotations]; the two [print]s read
    the annotation before the record is built. *)
Definition enrich_annotation (n : nat) (annotation : pydict)
  : result (pydict * nat) :=
  _ ← getitem annotation (lit "doc_title");
  _ ← getitem annotation (lit "peco_elements");
  doc_title ← getitem annotation (lit "doc_title");
  doc_lastauthorname ← getitem annotation (lit "doc_lastauthorname");
  doc_year ← getitem annotation (lit "doc_year");
  url ← getitem annotation (lit "doc_url");
  doc_peco_section ← getitem annotation (lit "doc_peco_section");
  peco_statement ← getitem annotation (lit "peco_statement");
  let annotation_d : pydict :=
    [ (lit "doc_title", doc_title);
      (lit "doc_lastauthorname", doc_lastauthorname);
      (lit "doc_year", doc_year);
      (lit "url", url);
      (lit "doc_peco_section", doc_peco_section);
      (lit "peco_statement", peco_statement);
      (lit "peco_elements",
        PDict [ (lit "Population", PList []);
                (lit "Exposure", PList []);
                (lit "Comparator", PList []);
                (lit "Outcome", PList []) ]) ] in
  elements ← getitem annotation (lit "peco_elements");
  items ← py_items elements;
  enrich_elements n annotation_d items.

Fixpoint enrichment_loop (n : nat) (annotations : list pydict)
    (parsed_output : list pydict) : result (list pydict) :=
  match annotations with
  | [] => Ok parsed_output
  | annotation :: rest =>
      '(annotation_d, n) ← enrich_annotation n annotation;
      enrichment_loop n rest (parsed_output ++ [annotation_d])
  end.

(** The script from the parsed document to [parsed_output]. *)
Definition script (doc : Document) : result (list pydict) :=
  annotations ← extract_peco_highlights_from_tables doc;
  enrichment_loop 0 annotations [].

End Enrichment.

(** ** Properties named by the specification *)

(** A search or ancestors request that failed in transport or came back
    with a 4xx or 5xx status. *)
Definition request_failed (o : http_outcome) : Prop :=
  match o with
  | Failed => True
  | Response status_code _ => bad_status status_code = true
  end.

(** The first cell's trimmed text of a row contains [label]. *)
Definition row_has_label (label : pystr) (row : Row) : bool :=
  match cells row with
  | [] => false
  | first :: _ => contains label (strip (cell_text first))
  end.

Definition is_peco_row (row : Row) : bool :=
  row_has_label (lit "PECO statement") row.

(** The seven labels the row scan tests for. *)
Definition row_labels : list pystr :=
  [ lit "Title of manuscript"; lit "Last name of first author";
    lit "Year of publication"; lit "URL of HTML manuscript";
    lit "Section PECO statement is in"; lit "Annotator comments";
    lit "PECO statement" ].

Definition is_recognized_row (row : Row) : bool :=
  existsb (fun label => row_has_label label row) row_labels.

Definition has_peco_row (table : Table) : bool := existsb is_peco_row (rows table).
Definition has_recognized_row (table : Table) : bool :=
  existsb is_recognized_row (rows table).

(** Every row of every table has at least one cell. *)
Definition rows_have_cells (ts : list Table) : Prop :=
  Forall (fun table => Forall (fun row => cells row <> []) (rows table)) ts.

(** The integer stored under ["distance_from_root"]. *)
Definition distance_from_root (σ : store) (m : loc) : Z :=
  match dict_get (lit "distance_from_root") (σ m) with
  | Some (PInt z) => z
  | _ => 0
  end.

(** Every concept of the list carries an IRI and an ontology name, and the
    fetch made for it (request [n], [n+1], ...) hands back a list. *)
Fixpoint fetches_succeed (http_get : nat -> url -> pydict -> http_outcome)
    (n : nat) (σ : store) (ontology_matches : list loc) : Prop :=
  match ontology_matches with
  | [] => True
  | m :: rest =>
      (exists iri ontology ancestors,
          dict_get (lit "iri") (σ m) = Some iri /\
          dict_get (lit "ontology_name") (σ m) = Some ontology /\
          get_term_ancestors http_get n ontology iri = Ok (AncList ancestors))
      /\ fetches_succeed http_get (S n) σ rest
  end.

(** [concept] holds under [field] the raw document's value, or the
    sentinel string when the raw document has no such field. *)
Definition field_filled (raw : dict pyvalue) (concept : pydict)
    (field sentinel : pystr) : Prop :=
  match dict_get field raw with
  | Some v => dict_get field concept = Some v
  | None => dict_get field concept = Some (PStr sentinel)
  end.

(** The five-field record built from one raw result document. *)
Definition concept_built (term_info : pyvalue) (concept : pydict) : Prop :=
  exists raw,
    term_info = PDict raw /\
    dict_keys concept =
      [ lit "label"; lit "iri"; lit "description"; lit "ontology_name";
        lit "short_form" ] /\
    field_filled raw concept (lit "label") (lit "No Label") /\
    field_filled raw concept (lit "iri") (lit "No IRI") /\
    field_filled raw concept (lit "description") (lit "No Description") /\
    field_filled raw concept (lit "ontology_name") (lit "No Ontology Name") /\
    field_filled raw concept (lit "short_form") (lit "No Short Form").

(** The fields the enrichment loop reads from every annotation. *)
Definition required_fields : list pystr :=
  [ lit "doc_title"; lit "peco_elements"; lit "doc_lastauthorname";
    lit "doc_year"; lit "doc_url"; lit "doc_peco_section";
    lit "peco_statement" ].

(** What the PECO-statement path computes from the last cell of [row]:
    the phrases per category and the raw statement. *)
Definition row_peco_scan (row : Row) : option (dict (list pystr) * pystr) :=
  match cells row with
  | [] => None
  | first :: _ => Some (peco_cell_scan (List.last (cells row) first))
  end.

(** The list [ancestors] is what a fetch made for record [m] (the request
    numbered [n + i], for the [i]-th entry of the list) handed back. *)
Definition fetched_for (http_get : nat -> url -> pydict -> http_outcome)
    (n : nat) (σ : store) (ontology_matches : list loc) (m : loc)
    (ancestors : list pyvalue) : Prop :=
  exists (i : nat) iri ontology,
    ontology_matches !! i = Some m /\
    dict_get (lit "iri") (σ m) = Some iri /\
    dict_get (lit "ontology_name") (σ m) = Some ontology /\
    get_term_ancestors http_get (n + i) ontology iri = Ok (AncList ancestors).

(** Ascending by the stored distance. *)
Definition by_distance (σ : store) (x y : loc) : Prop :=
  distance_from_root σ x <= distance_from_root σ y.

(** [list.sort(key=...)] decorates every element with its key; the order
    of the keys is the order of the sort. *)
Definition decorate {A} (key : A -> Z) (l : list A) : list (Z * A) :=
  List.map (fun x => (key x, x)) l.
Definition keyed {A} (key : A -> Z) (p : Z * A) : Prop := fst p = key (snd p).
Definition key_le {A} (x y : Z * A) : Prop := fst x <= fst y.

(** What the ranker's loop has done to the store [σ] when it has gone
    through [ontology_matches]: records outside the list are untouched;
    every record of the list holds a fetched ancestor list and its length;
    no other field of any record has changed, appeared or disappeared. *)
Definition augmented (http_get : nat -> url -> pydict -> http_outcome)
    (n : nat) (σ : store) (ontology_matches : list loc) (σ' : store) : Prop :=
  (forall m, ~ In m ontology_matches -> σ' m = σ m) /\
  (forall m, In m ontology_matches ->
     exists ancestors,
       fetched_for http_get n σ ontology_matches m ancestors /\
       dict_get (lit "ancestors") (σ' m) = Some (PList ancestors) /\
       dict_get (lit "distance_from_root") (σ' m)
         = Some (PInt (Z.of_nat (length ancestors)))) /\
  (forall m k,
     k <> lit "ancestors" -> k <> lit "distance_from_root" ->
     dict_get k (σ' m) = dict_get k (σ m)).

(** The four categories of the record the enrichment loop builds. *)
Definition categories : list pystr :=
  [ lit "Population"; lit "Exposure"; lit "Comparator"; lit "Outcome" ].

(** The annotation carries every field the enrichment loop reads. *)
Definition complete (annotation : pydict) : bool :=
  forallb (fun field => dict_mem field annotation) required_fields.

(** Every search of the run hands back results. *)
Definition searches_succeed (http_get : nat -> url -> pydict -> http_outcome)
    (json_dumps : pyvalue -> pystr) : Prop :=
  forall n text, exists jsonresults ontology_matches,
    retrieve_ontology_matches http_get json_dumps n text NUMRESULTS PNone
    = Ok (Some (jsonresults, ontology_matches)).

(** The record built for [annotation]: its six metadata fields, and one
    list per category. *)
Definition enriched_from (annotation annotation_d : pydict) : Prop :=
  dict_get (lit "doc_title") annotation_d = dict_get (lit "doc_title") annotation /\
  dict_get (lit "doc_lastauthorname") annotation_d
    = dict_get (lit "doc_lastauthorname") annotation /\
  dict_get (lit "doc_year") annotation_d = dict_get (lit "doc_year") annotation /\
  dict_get (lit "url") annotation_d = dict_get (lit "doc_url") annotation /\
  dict_get (lit "doc_peco_section") annotation_d
    = dict_get (lit "doc_peco_section") annotation /\
  dict_get (lit "peco_statement") annotation_d
    = dict_get (lit "peco_statement") annotation /\
  exists elements,
    dict_get (lit "peco_elements") annotation_d = Some (PDict elements) /\
    dict_keys elements = categories /\
    Forall (fun kv => exists entries, snd kv = PList entries) elements.

(** A value stored under ["peco_elements"] by the extractor: lists of
    phrases under some of the four categories. *)
Definition phrases_value (v : pyvalue) : Prop :=
  exists m : dict (list pystr),
    v = elements_value m /\ Forall (fun kv => In (fst kv) categories) m.

Definition phrases_if_any (d : pydict) : Prop :=
  forall v, dict_get (lit "peco_elements") d = Some v -> phrases_value v.

(** The record under construction holds one list per category. *)
Definition four_lists (annotation_d : pydict) : Prop :=
  exists elements,
    dict_get (lit "peco_elements") annotation_d = Some (PDict elements) /\
    dict_keys elements = categories /\
    Forall (fun kv => exists entries, snd kv = PList entries) elements.

(** ** Concrete documents, records and services *)

Module Scenario.

Definition no_font : Font := {| highlight_color := None; color := None |}.
Definition plain_run (s : pystr) : Run := {| run_text := s; font := no_font |}.
Definition highlighted_run (i : color_index) (s : pystr) : Run :=
  {| run_text := s; font := {| highlight_color := Some i; color := None |} |}.

(** A cell of one paragraph; its text is the text of its runs. *)
Definition cell_of_runs (rs : list Run) : Cell :=
  {| cell_text := List.concat (List.map run_text rs);
     paragraphs := [ {| runs := rs |} ] |}.
Definition text_cell (s : pystr) : Cell := cell_of_runs [plain_run s].
Definition text_row (label value : pystr) : Row :=
  {| cells := [text_cell label; text_cell value] |}.

Definition AUTO : color_index := {| ci_name := lit "AUTO"; ci_value := 0 |}.
Definition PINK : color_index := {| ci_name := lit "PINK"; ci_value := 5 |}.
Definition YELLOW : color_index := {| ci_name := lit "YELLOW"; ci_value := 7 |}.
Definition pure_red : RGBColor := {| red := 255; green := 0; blue := 0 |}.
Definition red_font_color : option ColorFormat := Some {| rgb := Some pure_red |}.

Definition pink_run : Run := highlighted_run PINK (lit "elderly adults").
Definition pink_and_red_run : Run :=
  {| run_text := lit "elderly adults";
     font := {| highlight_color := Some PINK; color := red_font_color |} |}.
Definition red_run : Run :=
  {| run_text := lit "were studied";
     font := {| highlight_color := None; color := red_font_color |} |}.
Definition auto_and_red_run : Run :=
  {| run_text := lit "elderly adults";
     font := {| highlight_color := Some AUTO; color := red_font_color |} |}.
Definition auto_run : Run := highlighted_run AUTO (lit "elderly adults").

(** The table of the specification's scenario. *)
Definition peco_row : Row :=
  {| cells := [ text_cell (lit "PECO statement");
                cell_of_runs [pink_run; plain_run (lit "were studied")] ] |}.
Definition study_table : Table :=
  {| rows := [ text_row (lit "Title of manuscript") (lit "Study X");
               text_row (lit "Year of publication") (lit "2020");
               peco_row ] |}.
Definition study_doc : Document := {| tables := [study_table] |}.

(** A table with a title row and nothing else. *)
Definition title_only_table : Table :=
  {| rows := [ text_row (lit "Title of manuscript") (lit "Study X") ] |}.
Definition title_only_doc : Document := {| tables := [title_only_table] |}.

(** A table with a PECO-statement row and nothing else. *)
Definition peco_only_table : Table := {| rows := [peco_row] |}.
Definition peco_only_doc : Document := {| tables := [peco_only_table] |}.

(** A table with every row the enrichment loop needs. *)
Definition complete_table : Table :=
  {| rows := [ text_row (lit "Title of manuscript") (lit "Study X");
               text_row (lit "Last name of first author") (lit "Doe");
               text_row (lit "Year of publication") (lit "2020");
               text_row (lit "URL of HTML manuscript") (lit "https://example.org/x");
               text_row (lit "Section PECO statement is in") (lit "Abstract");
               peco_row ] |}.
Definition complete_doc : Document := {| tables := [complete_table] |}.

(** A table with two PECO-statement rows. *)
Definition second_peco_row : Row :=
  {| cells := [ text_cell (lit "PECO statement (revised)");
                cell_of_runs [highlighted_run YELLOW (lit "mortality")] ] |}.
Definition two_peco_table : Table :=
  {| rows := [ peco_row;
               text_row (lit "Year of publication") (lit "2020");
               second_peco_row;
               text_row (lit "Annotator comments") (lit "checked") ] |}.

(** Services. *)
Definition down : nat -> url -> pydict -> http_outcome := fun _ _ _ => Failed.
Definition not_found : nat -> url -> pydict -> http_outcome :=
  fun _ _ _ => Response 404 None.

Definition term (name : pystr) : pyvalue := PDict [ (lit "label", PStr name) ].
Definition ancestors_body (terms : list pyvalue) : pyvalue :=
  PDict [ (lit "_embedded", PDict [ (lit "terms", PList terms) ]) ].
Definition raw_doc : list (pystr * pyvalue) :=
  [ (lit "iri", PStr (lit "http://www.ebi.ac.uk/efo/EFO_0000400"));
    (lit "label", PStr (lit "diabetes mellitus"));
    (lit "ontology_name", PStr (lit "efo"));
    (lit "short_form", PStr (lit "EFO_0000400")) ].
Definition search_body : pyvalue :=
  PDict [ (lit "response", PDict [ (lit "docs", PList [PDict raw_doc]) ]) ].

(** A service that answers every search with [search_body], the first
    ancestors request with three ancestors and the later ones with one. *)
Definition healthy : nat -> url -> pydict -> http_outcome :=
  fun n u _ =>
    match u with
    | SearchUrl => Response 200 (Some search_body)
    | AncestorsUrl _ _ =>
        match n with
        | O => Response 200
                 (Some (ancestors_body
                          [term (lit "disease"); term (lit "material property");
                           term (lit "experimental factor")]))
        | S _ => Response 200 (Some (ancestors_body [term (lit "disease")]))
        end
    end.

(** A service that answers the first request and fails afterwards. *)
Definition flaky : nat -> url -> pydict -> http_outcome :=
  fun n u params =>
    match n with
    | O => healthy n u params
    | S _ => Failed
    end.

(** The serialisation is not consulted by the script. *)
Definition dumps : pyvalue -> pystr := fun _ => lit "{}".

(** Concept records A (object 0) and B (object 1). *)
Definition concept (iri : pyvalue) (label : pystr) : pydict :=
  [ (lit "label", PStr label);
    (lit "iri", iri);
    (lit "description", PStr (lit "No Description"));
    (lit "ontology_name", PStr (lit "efo"));
    (lit "short_form", PStr (lit "No Short Form")) ].
Definition records : store :=
  fun m =>
    match m with
    | O => concept (PStr (lit "http://www.ebi.ac.uk/efo/EFO_0000400")) (lit "A")
    | S _ => concept (PStr (lit "http://www.ebi.ac.uk/efo/EFO_0000408")) (lit "B")
    end.
Definition null_iri_records : store := fun _ => concept PNone (lit "A").

End Scenario.

(** ** Further notions about the extraction *)

(** The runs of a cell, over all its paragraphs, in document order. *)
Definition cell_runs (c : Cell) : list Run :=
  List.concat (List.map runs (paragraphs c)).

(** The category under which the run scan files a run's phrase, if any:
    the run must have a truthy colour, a non-empty trimmed text, and a
    colour key listed in [annotation_map]. *)
Definition run_category (run : Run) : option pystr :=
  let color := get_highlight_color run in
  if color_truthy color && str_truthy (strip (run_text run)) then
    dict_get (str_color color) annotation_map
  else None.

(** The trimmed texts of the runs filed under [category], in order. *)
Definition phrases_of (category : pystr) (rs : list Run) : list pystr :=
  List.map (fun run => strip (run_text run))
    (List.filter (fun run => bool_decide (run_category run = Some category)) rs).

(** The trimmed text of every run, each followed by one space. *)
Definition spaced_texts (rs : list Run) : pystr :=
  List.concat (List.map (fun run => strip (run_text run) ++ lit " ") rs).


(** The eight field names the row scan can write. *)
Definition annotation_fields : list pystr :=
  [ lit "doc_title"; lit "doc_lastauthorname"; lit "doc_year"; lit "doc_url";
    lit "doc_peco_section"; lit "doc_annotator_comments";
    lit "peco_elements"; lit "peco_statement" ].

(** The six metadata rows: the label looked for and the field written. *)
Definition metadata_routes : list (pystr * pystr) :=
  [ (lit "Title of manuscript", lit "doc_title");
    (lit "Last name of first author", lit "doc_lastauthorname");
    (lit "Year of publication", lit "doc_year");
    (lit "URL of HTML manuscript", lit "doc_url");
    (lit "Section PECO statement is in", lit "doc_peco_section");
    (lit "Annotator comments", lit "doc_annotator_comments") ].

(** The trimmed text of the last cell of a row. *)
Definition row_value (row : Row) : option pyvalue :=
  match cells row with
  | [] => None
  | first :: _ => Some (PStr (strip (cell_text (List.last (cells row) first))))
  end.

(** The last row, in row order, that satisfies [hit]. *)
Definition last_row (hit : Row -> bool) (rs : list Row) : option Row :=
  List.find hit (rev rs).

(** The run has no highlight index that counts: none, or the one of value 0. *)
Definition no_truthy_highlight (run : Run) : Prop :=
  match highlight_color (font run) with
  | None => True
  | Some i => index_truthy i = false
  end.

(** ** Further notions about the requests *)

(** A code point that UTF-8 can encode: below U+110000 and no surrogate. *)
Definition scalar_value (c : char) : Prop :=
  (c < 55296 \/ 57343 < c < 1114112)%N.

(** The second quoting pass on an already quoted string: only [%] is
    rewritten, into [%25]. *)
Definition requote (inner : pystr) : pystr :=
  List.concat
    (List.map (fun c => if (c =? 37)%N then lit "%25" else [c]) inner).

(** ** Further notions about the enrichment *)

(** The phrases listed under [category] in the items of an annotation's
    [peco_elements], in order. *)
Definition texts_under (category : pystr) (items : list (pystr * pyvalue))
  : list pyvalue :=
  List.concat
    (List.map
       (fun kv =>
          if bool_decide (fst kv = category) then
            match snd kv with PList texts => texts | _ => [] end
          else [])
       items).

(** Every phrase of the items, in the order of the loop. *)
Definition all_texts (items : list (pystr * pyvalue)) : list pyvalue :=
  List.concat
    (List.map (fun kv => match snd kv with PList texts => texts | _ => [] end)
       items).

(** [entry] is the record appended for the phrase [text]: the phrase and
    the matches of a search made for it. *)
Definition entry_for (http_get : nat -> url -> pydict -> http_outcome)
    (json_dumps : pyvalue -> pystr) (text entry : pyvalue) : Prop :=
  exists n jsonresults ontology_matches,
    retrieve_ontology_matches http_get json_dumps n text NUMRESULTS PNone
    = Ok (Some (jsonresults, ontology_matches)) /\
    entry = PDict [ (lit "text", text);
                    (lit "matches", PList (List.map PDict ontology_matches)) ].

(** The list held under [category] by the record under construction. *)
Definition entries_under (category : pystr) (annotation_d : pydict)
  : list pyvalue :=
  match dict_get (lit "peco_elements") annotation_d with
  | Some (PDict elements) =>
      match dict_get category elements with
      | Some (PList entries) => entries
      | _ => []
      end
  | _ => []
  end.

(** The keys of an output record, in order. *)
Definition output_fields : list pystr :=
  [ lit "doc_title"; lit "doc_lastauthorname"; lit "doc_year"; lit "url";
    lit "doc_peco_section"; lit "peco_statement"; lit "peco_elements" ].

(** The annotation extracted from the table that has every row, with
    the annotator's comments as well. *)
Definition complete_annotation : pydict :=
  dict_set (lit "doc_annotator_comments") (PStr (lit "checked"))
    match extract_peco_highlights_from_tables Scenario.complete_doc with
    | Ok (annotation :: _) => annotation
    | _ => []
    end.

(** A JSON object, that is a Python [dict]. *)
Definition is_object (v : pyvalue) : bool :=
  match v with PDict _ => true | _ => false end.

(** The object lacks [outer], or holds under it an object that lacks
    [inner]. *)
Definition lacks_nested (outer inner : pystr) (body : dict pyvalue) : Prop :=
  dict_get outer body = None \/
  exists nested, dict_get outer body = Some (PDict nested) /\
                 dict_get inner nested = None.

(** The searches made for [texts] (requests [n], [n+1], ...) all hand
    back results. *)
Fixpoint searches_succeed_for (http_get : nat -> url -> pydict -> http_outcome)
    (json_dumps : pyvalue -> pystr) (n : nat) (texts : list pyvalue) : Prop :=
  match texts with
  | [] => True
  | text :: rest =>
      (exists jsonresults ontology_matches,
          retrieve_ontology_matches http_get json_dumps n text NUMRESULTS PNone
          = Ok (Some (jsonresults, ontology_matches)))
      /\ searches_succeed_for http_get json_dumps (S n) rest
  end.


(** * Verification *)

(** ** Dictionaries *)

Section DictFacts.
Context {V : Type}.
Implicit Types (d : dict V) (k : pystr) (v : V).

Lemma str_eqb_refl k : str_eqb k k = true.
Proof. unfold str_eqb. by rewrite bool_decide_eq_true. Qed.

Lemma str_eqb_ne k k' : k <> k' -> str_eqb k k' = false.
Proof. intros ?. unfold str_eqb. by rewrite bool_decide_eq_false. Qed.

Lemma dict_get_set_eq k v d : dict_get k (dict_set k v d) = Some v.
Proof.
  induction d as [|[k' v'] d IH]; simpl.
  - by rewrite str_eqb_refl.
  - destruct (str_eqb k k') eqn:E; simpl; rewrite E; [done | apply IH].
Qed.

Lemma dict_get_set_ne k k' v d :
  k <> k' -> dict_get k' (dict_set k v d) = dict_get k' d.
Proof.
  intros Hne. induction d as [|[k0 v0] d IH]; simpl.
  - rewrite str_eqb_ne; [done | congruence].
  - destruct (str_eqb k k0) eqn:E; simpl.
    + apply bool_decide_eq_true in E as ->.
      rewrite str_eqb_ne; [done | congruence].
    + by rewrite IH.
Qed.

Lemma dict_set_truthy k v d : dict_truthy (dict_set k v d) = true.
Proof. destruct d as [|[k' v'] d]; simpl; [done|]. by destruct (str_eqb k k'). Qed.

Lemma getitem_Some k v d : dict_get k d = Some v -> getitem d k = Ok v.
Proof. unfold getitem. by intros ->. Qed.

Lemma getitem_None k d : dict_get k d = None -> getitem d k = Raise (KeyError k).
Proof. unfold getitem. by intros ->. Qed.
End DictFacts.

(** ** Exceptions *)

Lemma bind_Ok {A B} (a : A) (f : A -> result B) : (Ok a ≫= f) = f a.
Proof. reflexivity. Qed.

Lemma bind_Raise {A B} (e : exn) (f : A -> result B) : (Raise e ≫= f) = Raise e.
Proof. reflexivity. Qed.

(** ** The highlight colour of a run *)

(** C9, as stated, fails: a run highlighted with the index of value 0
    ([AUTO]) and carrying a red font colour gets the font colour, not its
    highlight index; with no font colour it gets no key at all. *)
Lemma get_highlight_color_zero_index :
  highlight_color (font Scenario.auto_and_red_run) = Some Scenario.AUTO /\
  get_highlight_color Scenario.auto_and_red_run = Some (Rgb Scenario.pure_red) /\
  highlight_color (font Scenario.auto_run) = Some Scenario.AUTO /\
  get_highlight_color Scenario.auto_run = None.
Proof. by repeat split. Qed.

(** C9, amended: the highlight index is returned when the run has one and
    it is truthy (its value is not 0), whatever the font colour; otherwise
    the RGB font colour when the run has one; otherwise nothing, and then
    the run adds no phrase to any category. *)
Theorem get_highlight_color_policy (run : Run) :
  (forall i, highlight_color (font run) = Some i -> index_truthy i = true ->
             get_highlight_color run = Some (Highlight i)) /\
  (forall cf c,
      (highlight_color (font run) = None \/
       exists i, highlight_color (font run) = Some i /\ index_truthy i = false) ->
      color (font run) = Some cf -> rgb cf = Some c ->
      get_highlight_color run = Some (Rgb c)) /\
  ((highlight_color (font run) = None \/
    exists i, highlight_color (font run) = Some i /\ index_truthy i = false) ->
   (color (font run) = None \/
    exists cf, color (font run) = Some cf /\ rgb cf = None) ->
   get_highlight_color run = None) /\
  (get_highlight_color run = None ->
   forall color_text_map statement,
     fst (peco_run (color_text_map, statement) run) = color_text_map).
Proof.
  unfold get_highlight_color. split; [|split; [|split]].
  - by intros i -> ->.
  - intros cf c [-> | (i & -> & ->)] -> ->; done.
  - intros [-> | (i & -> & ->)] [-> | (cf & -> & ->)]; done.
  - intros Hnone m st. unfold peco_run, get_highlight_color.
    by rewrite Hnone.
Qed.

Lemma get_highlight_color_policy_witness :
  get_highlight_color Scenario.pink_and_red_run = Some (Highlight Scenario.PINK) /\
  get_highlight_color Scenario.red_run = Some (Rgb Scenario.pure_red) /\
  get_highlight_color Scenario.auto_run = None /\
  fst (peco_run ([], []) Scenario.auto_run) = [].
Proof.
  split; [|split; [|split]].
  - apply (proj1 (get_highlight_color_policy Scenario.pink_and_red_run)
             Scenario.PINK); reflexivity.
  - apply (proj1 (proj2 (get_highlight_color_policy Scenario.red_run))
             {| rgb := Some Scenario.pure_red |} Scenario.pure_red);
      [left; reflexivity | reflexivity | reflexivity].
  - apply (proj1 (proj2 (proj2 (get_highlight_color_policy Scenario.auto_run)))).
    + right. exists Scenario.AUTO. split; reflexivity.
    + left. reflexivity.
  - apply (proj2 (proj2 (proj2 (get_highlight_color_policy Scenario.auto_run)))).
    reflexivity.
Defined.

(** ** The concepts built from the search results *)

Lemma concept_of_built (raw : dict pyvalue) :
  exists concept, concept_of (PDict raw) = Ok concept /\
                  concept_built (PDict raw) concept.
Proof.
  eexists. split; [reflexivity|].
  exists raw. split; [done|]. split; [done|].
  unfold field_filled.
  destruct (dict_get (lit "label") raw), (dict_get (lit "iri") raw),
    (dict_get (lit "description") raw), (dict_get (lit "ontology_name") raw),
    (dict_get (lit "short_form") raw); by vm_compute.
Qed.

Lemma mapM_concept_of (docs : list pyvalue) :
  Forall (fun term_info => exists raw, term_info = PDict raw) docs ->
  exists concepts, mapM concept_of docs = Ok concepts /\
                   Forall2 concept_built docs concepts.
Proof.
  induction 1 as [|term_info docs [raw ->] _ (concepts & IH & Hall)].
  - exists []. by split.
  - destruct (concept_of_built raw) as (concept & Hc & Hb).
    exists (concept :: concepts). split.
    + cbn [mapM]. rewrite Hc, bind_Ok, IH. reflexivity.
    + by constructor.
Qed.

(** C7: when the search answers, every raw result document becomes a
    record with the five fields [label], [iri], [description],
    [ontology_name] and [short_form], in the service's order; a field the
    raw document lacks holds its sentinel string, a field it has holds the
    raw value. *)
Theorem retrieve_ontology_matches_fills_fields
    (http_get : nat -> url -> pydict -> http_outcome)
    (json_dumps : pyvalue -> pystr) (n : nat) (term : pyvalue)
    (numresults : Z) (ontology : pyvalue)
    (status_code : Z) (results response : pyvalue) (docs : list pyvalue) :
  http_get n SearchUrl (search_params term numresults ontology)
    = Response status_code (Some results) ->
  bad_status status_code = false ->
  py_get results (lit "response") (PDict []) = Ok response ->
  py_get response (lit "docs") (PList []) = Ok (PList docs) ->
  Forall (fun term_info => exists raw, term_info = PDict raw) docs ->
  exists ontology_matches,
    retrieve_ontology_matches http_get json_dumps n term numresults ontology
      = Ok (Some (json_dumps results, ontology_matches)) /\
    Forall2 concept_built docs ontology_matches.
Proof.
  intros Hget Hstatus Hresp Hdocs Hall.
  destruct (mapM_concept_of docs Hall) as (concepts & Hm & Hb).
  exists concepts. split; [|done].
  unfold retrieve_ontology_matches, http_json.
  rewrite Hget, Hstatus, Hresp, bind_Ok, Hdocs, bind_Ok.
  cbn [py_iter]. rewrite bind_Ok, Hm. reflexivity.
Qed.

Lemma retrieve_ontology_matches_fills_fields_witness :
  exists ontology_matches,
    retrieve_ontology_matches Scenario.healthy Scenario.dumps 0
      (PStr (lit "diabetes")) NUMRESULTS PNone
      = Ok (Some (Scenario.dumps Scenario.search_body, ontology_matches)) /\
    Forall2 concept_built [PDict Scenario.raw_doc] ontology_matches.
Proof.
  apply (retrieve_ontology_matches_fills_fields Scenario.healthy Scenario.dumps
           0 (PStr (lit "diabetes")) NUMRESULTS PNone 200 Scenario.search_body
           (PDict [ (lit "docs", PList [PDict Scenario.raw_doc]) ])
           [PDict Scenario.raw_doc]).
  - reflexivity.
  - reflexivity.
  - reflexivity.
  - reflexivity.
  - repeat constructor. by exists Scenario.raw_doc.
Defined.

(** ** The scenario of the specification *)

(** C6: the table with a title row, a year row and a PECO-statement row
    whose last cell holds a PINK (5) run "elderly adults" and a plain run
    "were studied" yields exactly one annotation, with the title, the
    year, the phrase under Population, and a statement that holds both run
    texts joined by a space. *)
Theorem extract_study_table :
  exists annotation elements statement,
    extract_peco_highlights_from_tables Scenario.study_doc = Ok [annotation] /\
    dict_get (lit "doc_title") annotation = Some (PStr (lit "Study X")) /\
    dict_get (lit "doc_year") annotation = Some (PStr (lit "2020")) /\
    dict_get (lit "peco_elements") annotation = Some (PDict elements) /\
    elements = [ (lit "Population", PList [PStr (lit "elderly adults")]) ] /\
    dict_get (lit "peco_statement") annotation = Some (PStr statement) /\
    statement = lit "elderly adults were studied " /\
    contains (lit "elderly adults" ++ lit " " ++ lit "were studied") statement = true.
Proof.
  eexists _, _, _.
  split; [vm_compute; reflexivity|].
  split; [vm_compute; reflexivity|].
  split; [vm_compute; reflexivity|].
  split; [vm_compute; reflexivity|].
  split; [vm_compute; reflexivity|].
  split; [vm_compute; reflexivity|].
  split; vm_compute; reflexivity.
Qed.

(** ** Failures of the service *)

Lemma http_json_failed (http_get : nat -> url -> pydict -> http_outcome)
    (n : nat) (u : url) (params : pydict) :
  request_failed (http_get n u params) ->
  exists e, http_json http_get n u params = inl e.
Proof.
  unfold request_failed, http_json.
  destruct (http_get n u params) as [|status_code body].
  - by exists TransportError.
  - intros ->. by exists (HTTPError status_code).
Qed.

(** C1: on a transport error or a 4xx/5xx status the retriever catches the
    exception but hands back [None], not an empty sequence of matches;
    the enrichment loop, which unpacks a pair, then stops with a
    [TypeError] instead of going on to the next phrase. *)
Theorem retrieve_failure_stops_enrichment
    (http_get : nat -> url -> pydict -> http_outcome)
    (json_dumps : pyvalue -> pystr) (n : nat) (text : pyvalue)
    (annotation_d : pydict) (peco_element : pystr) (rest : list pyvalue) :
  request_failed (http_get n SearchUrl (search_params text NUMRESULTS PNone)) ->
  retrieve_ontology_matches http_get json_dumps n text NUMRESULTS PNone = Ok None /\
  enrich_texts http_get json_dumps n annotation_d peco_element (text :: rest)
    = Raise TypeError.
Proof.
  intros Hfail.
  destruct (http_json_failed _ _ _ _ Hfail) as [e He].
  assert (Hnone : retrieve_ontology_matches http_get json_dumps n text NUMRESULTS PNone
                  = Ok None).
  { unfold retrieve_ontology_matches. by rewrite He. }
  split; [done|].
  cbn [enrich_texts]. by rewrite Hnone.
Qed.

Lemma retrieve_failure_stops_enrichment_witness :
  (retrieve_ontology_matches Scenario.not_found Scenario.dumps 0
     (PStr (lit "elderly adults")) NUMRESULTS PNone = Ok None /\
   enrich_texts Scenario.not_found Scenario.dumps 0 [] (lit "Population")
     [PStr (lit "elderly adults"); PStr (lit "mortality")] = Raise TypeError) /\
  script Scenario.not_found Scenario.dumps Scenario.complete_doc = Raise TypeError.
Proof.
  split.
  - apply (retrieve_failure_stops_enrichment Scenario.not_found Scenario.dumps 0
             (PStr (lit "elderly adults")) [] (lit "Population")
             [PStr (lit "mortality")]).
    reflexivity.
  - vm_compute. reflexivity.
Defined.


(** ** Annotations with missing rows *)

(** An annotation that lacks one of the fields the enrichment loop reads
    stops the loop with a [KeyError]. *)
Lemma enrichment_loop_missing_field
    (http_get : nat -> url -> pydict -> http_outcome)
    (json_dumps : pyvalue -> pystr) (n : nat) (annotation : pydict)
    (rest parsed_output : list pydict) (field : pystr) :
  In field required_fields ->
  dict_get field annotation = None ->
  exists missing,
    In missing required_fields /\
    dict_get missing annotation = None /\
    enrichment_loop http_get json_dumps n (annotation :: rest) parsed_output
      = Raise (KeyError missing).
Proof.
  intros Hin Hnone. cbn [enrichment_loop]. unfold enrich_annotation.
  assert (Hstep : forall k (f : pyvalue -> result (pydict * nat))
                    (g : pydict * nat -> result (list pydict)),
    In k required_fields ->
    (forall v, dict_get k annotation = Some v ->
       exists missing, In missing required_fields /\
         dict_get missing annotation = None /\
         (f v ≫= g) = Raise (KeyError missing)) ->
    exists missing, In missing required_fields /\
      dict_get missing annotation = None /\
      ((getitem annotation k ≫= f) ≫= g) = Raise (KeyError missing)).
  { intros k f g Hk Hcont. unfold getitem.
    destruct (dict_get k annotation) as [v|] eqn:E.
    - rewrite bind_Ok. by apply Hcont.
    - exists k. by rewrite !bind_Raise. }
  apply Hstep; [repeat (first [left; reflexivity | right])|]. intros ? E1.
  apply Hstep; [repeat (first [left; reflexivity | right])|]. intros ? E2.
  apply Hstep; [repeat (first [left; reflexivity | right])|]. intros ? _.
  apply Hstep; [repeat (first [left; reflexivity | right])|]. intros ? E3.
  apply Hstep; [repeat (first [left; reflexivity | right])|]. intros ? E4.
  apply Hstep; [repeat (first [left; reflexivity | right])|]. intros ? E5.
  apply Hstep; [repeat (first [left; reflexivity | right])|]. intros ? E6.
  apply Hstep; [repeat (first [left; reflexivity | right])|]. intros ? E7.
  exfalso. unfold required_fields in Hin.
  destruct Hin as [<-|[<-|[<-|[<-|[<-|[<-|[<-|[]]]]]]]]; congruence.
Qed.


(** ** The row scan *)

Lemma route_truthy (label field key : pystr) (value : pyvalue) (d : pydict) :
  dict_truthy (route label field key value d)
  = dict_truthy d || contains label key.
Proof.
  unfold route. destruct (contains label key).
  - by rewrite dict_set_truthy, orb_true_r.
  - by rewrite orb_false_r.
Qed.

Lemma route_get_ne (label field key k : pystr) (value : pyvalue) (d : pydict) :
  str_eqb field k = false ->
  dict_get k (route label field key value d) = dict_get k d.
Proof.
  intros Hne. unfold route. destruct (contains label key); [|done].
  apply dict_get_set_ne. intros ->. by rewrite str_eqb_refl in Hne.
Qed.

Lemma scan_row_truthy (d : pydict) (row : Row) :
  cells row <> [] ->
  exists d', scan_row d row = Ok d' /\
             dict_truthy d' = dict_truthy d || is_recognized_row row.
Proof.
  intros Hcells. unfold scan_row, is_recognized_row, row_has_label, row_labels.
  destruct (cells row) as [|first others] eqn:Ecells; [done|].
  eexists. split; [reflexivity|]. cbn [existsb].
  destruct (peco_cell_scan (List.last (first :: others) first)) as [m statement].
  destruct (contains (lit "PECO statement") (strip (cell_text first))).
  - rewrite dict_set_truthy. by rewrite !orb_true_r.
  - rewrite !route_truthy. rewrite !orb_false_r. by rewrite !orb_assoc.
Qed.

Lemma scan_rows_truthy (rs : list Row) (d : pydict) :
  Forall (fun row => cells row <> []) rs ->
  exists d', scan_rows d rs = Ok d' /\
             dict_truthy d' = dict_truthy d || existsb is_recognized_row rs.
Proof.
  intros Hall. revert d.
  induction Hall as [|row rs Hrow _ IH]; intros d.
  - exists d. by rewrite orb_false_r.
  - destruct (scan_row_truthy d row Hrow) as (d1 & H1 & T1).
    destruct (IH d1) as (d2 & H2 & T2).
    exists d2. split.
    + cbn [scan_rows]. by rewrite H1, bind_Ok.
    + rewrite T2, T1. cbn [existsb]. by rewrite orb_assoc.
Qed.

Lemma scan_rows_app (a b : list Row) (d : pydict) :
  scan_rows d (a ++ b) = scan_rows d a ≫= (fun d' => scan_rows d' b).
Proof.
  revert d. induction a as [|row a IH]; intros d; [done|].
  cbn [scan_rows app]. destruct (scan_row d row) as [d1|e]; [|done].
  rewrite !bind_Ok. apply IH.
Qed.

(** ** The table scan *)

Lemma scan_tables_acc (ts : list Table) (acc : list pydict) :
  scan_tables acc ts = scan_tables [] ts ≫= (fun recs => Ok (acc ++ recs)).
Proof.
  revert acc. induction ts as [|table ts IH]; intros acc.
  - cbn. by rewrite app_nil_r.
  - cbn [scan_tables]. destruct (scan_rows [] (rows table)) as [d|e]; [|done].
    rewrite !bind_Ok.
    rewrite (IH (if dict_truthy d then acc ++ [d] else acc)).
    rewrite (IH (if dict_truthy d then [] ++ [d] else [])).
    destruct (scan_tables [] ts) as [recs|e]; [|done].
    rewrite !bind_Ok. destruct (dict_truthy d); [|done].
    by rewrite <- app_assoc.
Qed.

Lemma scan_tables_app (ts1 ts2 : list Table) (acc : list pydict) :
  scan_tables acc (ts1 ++ ts2)
  = scan_tables acc ts1 ≫= (fun recs => scan_tables recs ts2).
Proof.
  revert acc. induction ts1 as [|table ts1 IH]; intros acc; [done|].
  cbn [scan_tables app]. destruct (scan_rows [] (rows table)) as [d|e]; [|done].
  rewrite !bind_Ok. apply IH.
Qed.

Lemma scan_tables_count (ts : list Table) (acc : list pydict) :
  rows_have_cells ts ->
  exists recs, scan_tables acc ts = Ok (acc ++ recs) /\
               length recs = length (List.filter has_recognized_row ts).
Proof.
  intros Hall. revert acc.
  induction Hall as [|table ts Htable _ IH]; intros acc.
  - exists []. by rewrite app_nil_r.
  - destruct (scan_rows_truthy (rows table) [] Htable) as (d & Hd & Td).
    cbn [scan_tables List.filter]. rewrite Hd, bind_Ok.
    cbn in Td. unfold has_recognized_row at 1. rewrite <- Td.
    destruct (dict_truthy d).
    + destruct (IH (acc ++ [d])) as (recs & Hr & Hlen).
      exists (d :: recs). split.
      * rewrite Hr. by rewrite <- app_assoc.
      * cbn. by rewrite Hlen.
    + apply IH.
Qed.

Lemma is_peco_row_recognized (row : Row) :
  is_peco_row row = true -> is_recognized_row row = true.
Proof.
  unfold is_peco_row, is_recognized_row, row_labels. intros H.
  cbn [existsb]. rewrite H. by rewrite !orb_true_r.
Qed.

Lemma has_peco_row_recognized (table : Table) :
  has_peco_row table = true -> has_recognized_row table = true.
Proof.
  unfold has_peco_row, has_recognized_row. rewrite !existsb_exists.
  intros (row & Hin & Hp). exists row. split; [done|].
  by apply is_peco_row_recognized.
Qed.

Lemma filter_length_le {A} (f g : A -> bool) (l : list A) :
  (forall x, f x = true -> g x = true) ->
  (length (List.filter f l) <= length (List.filter g l))%nat.
Proof.
  intros Hfg. induction l as [|x l IH]; [done|]. cbn.
  destruct (f x) eqn:Ef.
  - rewrite (Hfg x Ef). cbn. lia.
  - destruct (g x); cbn; lia.
Qed.

(** C3, as stated, fails: a table whose only row is a "Title of manuscript"
    row has no PECO-statement row, yet it produces a record. *)
Lemma extract_title_only_table :
  has_peco_row Scenario.title_only_table = false /\
  length (List.filter has_peco_row (tables Scenario.title_only_doc)) = 0%nat /\
  extract_peco_highlights_from_tables Scenario.title_only_doc
    = Ok [ [ (lit "doc_title", PStr (lit "Study X")) ] ].
Proof. split; [|split]; vm_compute; reflexivity. Qed.

(** C3, amended: when every row has at least one cell, the number of
    records equals the number of tables with a row whose first cell's
    trimmed text contains one of the seven labels of the row scan (the six
    metadata labels or "PECO statement"); a table with no such row
    produces no record, and every table with a PECO-statement row is among
    those counted. *)
Theorem extract_record_count (doc : Document) :
  rows_have_cells (tables doc) ->
  exists recs,
    extract_peco_highlights_from_tables doc = Ok recs /\
    length recs = length (List.filter has_recognized_row (tables doc)) /\
    (length (List.filter has_peco_row (tables doc)) <= length recs)%nat.
Proof.
  intros Hall. unfold extract_peco_highlights_from_tables.
  destruct (scan_tables_count (tables doc) [] Hall) as (recs & Hr & Hlen).
  exists recs. split; [done|]. split; [done|].
  rewrite Hlen. apply filter_length_le, has_peco_row_recognized.
Qed.

Lemma extract_record_count_witness :
  exists recs,
    extract_peco_highlights_from_tables
      {| tables := [ Scenario.title_only_table; {| rows := [] |};
                     Scenario.study_table ] |} = Ok recs /\
    length recs = 2%nat /\
    (1 <= length recs)%nat.
Proof.
  apply (extract_record_count
           {| tables := [ Scenario.title_only_table; {| rows := [] |};
                          Scenario.study_table ] |}).
  repeat constructor; discriminate.
Defined.

(** ** Several PECO-statement rows in one table *)

Lemma scan_row_peco (d : pydict) (row : Row) (m : dict (list pystr))
    (statement : pystr) :
  is_peco_row row = true ->
  row_peco_scan row = Some (m, statement) ->
  exists d', scan_row d row = Ok d' /\
             dict_get (lit "peco_elements") d' = Some (elements_value m) /\
             dict_get (lit "peco_statement") d' = Some (PStr statement).
Proof.
  unfold is_peco_row, row_has_label, row_peco_scan, scan_row.
  destruct (cells row) as [|first others]; [done|].
  destruct (peco_cell_scan (List.last (first :: others) first)) as [m' statement'].
  intros -> [= -> ->].
  eexists. split; [reflexivity|]. split.
  - rewrite dict_get_set_ne by done. apply dict_get_set_eq.
  - apply dict_get_set_eq.
Qed.

Lemma scan_row_other (d : pydict) (row : Row) :
  cells row <> [] ->
  is_peco_row row = false ->
  exists d', scan_row d row = Ok d' /\
             dict_get (lit "peco_elements") d' = dict_get (lit "peco_elements") d /\
             dict_get (lit "peco_statement") d' = dict_get (lit "peco_statement") d.
Proof.
  unfold is_peco_row, row_has_label, scan_row.
  destruct (cells row) as [|first others]; [done|].
  intros _ ->.
  eexists. split; [reflexivity|].
  split; by rewrite !route_get_ne.
Qed.

Lemma scan_rows_other (rs : list Row) (d : pydict) :
  Forall (fun row => cells row <> []) rs ->
  forallb (fun row => negb (is_peco_row row)) rs = true ->
  exists d', scan_rows d rs = Ok d' /\
             dict_get (lit "peco_elements") d' = dict_get (lit "peco_elements") d /\
             dict_get (lit "peco_statement") d' = dict_get (lit "peco_statement") d.
Proof.
  intros Hall. revert d.
  induction Hall as [|row rs Hrow _ IH]; intros d Hnone.
  - by exists d.
  - cbn [forallb] in Hnone. apply andb_true_iff in Hnone as [Hrow' Hrest].
    apply negb_true_iff in Hrow'.
    destruct (scan_row_other d row Hrow Hrow') as (d1 & H1 & E1 & S1).
    destruct (IH d1 Hrest) as (d2 & H2 & E2 & S2).
    exists d2. cbn [scan_rows]. rewrite H1, bind_Ok.
    split; [done|]. split; congruence.
Qed.

(** C8: the annotation of a table carries the phrases and the statement
    computed from the last row, in row order, whose first cell contains
    "PECO statement"; what earlier such rows computed is overwritten. *)
Theorem extract_last_peco_row_wins (doc : Document)
    (before after : list Table) (table : Table)
    (pre post : list Row) (row : Row)
    (m : dict (list pystr)) (statement : pystr) :
  rows_have_cells (tables doc) ->
  tables doc = before ++ table :: after ->
  rows table = pre ++ row :: post ->
  is_peco_row row = true ->
  forallb (fun later => negb (is_peco_row later)) post = true ->
  row_peco_scan row = Some (m, statement) ->
  exists recs1 annotation recs2,
    extract_peco_highlights_from_tables doc = Ok (recs1 ++ annotation :: recs2) /\
    scan_tables [] before = Ok recs1 /\
    scan_rows [] (rows table) = Ok annotation /\
    dict_get (lit "peco_elements") annotation = Some (elements_value m) /\
    dict_get (lit "peco_statement") annotation = Some (PStr statement).
Proof.
  intros Hall Htables Hrows Hpeco Hpost Hscan.
  unfold extract_peco_highlights_from_tables. rewrite Htables in *.
  unfold rows_have_cells in Hall.
  apply Forall_app in Hall as [Hbefore Hrest].
  apply Forall_cons in Hrest as [Htable Hafter].
  rewrite Hrows in Htable.
  apply Forall_app in Htable as [Hpre Hrow_post].
  apply Forall_cons in Hrow_post as [_ Hpost_cells].
  (* the rows of the table *)
  destruct (scan_rows_truthy pre [] Hpre) as (d1 & H1 & _).
  destruct (scan_row_peco d1 row m statement Hpeco Hscan) as (d2 & H2 & E2 & S2).
  destruct (scan_rows_other post d2 Hpost_cells Hpost) as (d3 & H3 & E3 & S3).
  assert (Hd3 : scan_rows [] (rows table) = Ok d3).
  { rewrite Hrows, scan_rows_app, H1, bind_Ok. cbn [scan_rows].
    by rewrite H2, bind_Ok. }
  assert (Htruthy : dict_truthy d3 = true).
  { destruct d3; [|done]. rewrite E2 in E3. discriminate E3. }
  (* the tables around it *)
  destruct (scan_tables_count before [] Hbefore) as (recs1 & Hr1 & _).
  destruct (scan_tables_count after (recs1 ++ [d3]) Hafter) as (recs2 & Hr2 & _).
  exists recs1, d3, recs2.
  split; [|split; [done|split; [done|split; congruence]]].
  rewrite scan_tables_app, Hr1, bind_Ok. cbn [scan_tables app].
  rewrite Hd3, bind_Ok, Htruthy, Hr2. by rewrite <- app_assoc.
Qed.

Lemma extract_last_peco_row_wins_witness :
  exists recs1 annotation recs2,
    extract_peco_highlights_from_tables
      {| tables := [Scenario.study_table; Scenario.two_peco_table] |}
      = Ok (recs1 ++ annotation :: recs2) /\
    scan_tables [] [Scenario.study_table] = Ok recs1 /\
    scan_rows [] (rows Scenario.two_peco_table) = Ok annotation /\
    dict_get (lit "peco_elements") annotation
      = Some (PDict [ (lit "Outcome", PList [PStr (lit "mortality")]) ]) /\
    dict_get (lit "peco_statement") annotation = Some (PStr (lit "mortality ")).
Proof.
  apply (extract_last_peco_row_wins
           {| tables := [Scenario.study_table; Scenario.two_peco_table] |}
           [Scenario.study_table] [] Scenario.two_peco_table
           [ Scenario.peco_row;
             Scenario.text_row (lit "Year of publication") (lit "2020") ]
           [ Scenario.text_row (lit "Annotator comments") (lit "checked") ]
           Scenario.second_peco_row
           [ (lit "Outcome", [lit "mortality"]) ] (lit "mortality ")).
  - repeat constructor; discriminate.
  - reflexivity.
  - reflexivity.
  - vm_compute. reflexivity.
  - vm_compute. reflexivity.
  - vm_compute. reflexivity.
Defined.

(** ** The sort *)

Section Sort.
Context {A : Type}.
Implicit Types (x : Z * A) (l : list (Z * A)).

Lemma insert_by_key_perm x l : Permutation (insert_by_key x l) (x :: l).
Proof.
  induction l as [|y l IH]; cbn; [done|].
  destruct (fst x <=? fst y); [done|].
  rewrite IH. apply perm_swap.
Qed.

Lemma sort_by_key_perm l : Permutation (sort_by_key l) l.
Proof.
  induction l as [|x l IH]; cbn; [done|].
  rewrite insert_by_key_perm. by constructor.
Qed.

Lemma insert_by_key_sorted x l :
  StronglySorted key_le l -> StronglySorted key_le (insert_by_key x l).
Proof.
  induction 1 as [|y l Hsorted IH Hall]; cbn.
  - by repeat constructor.
  - destruct (Z.leb_spec (fst x) (fst y)) as [Hle|Hlt].
    + constructor; [by constructor|].
      constructor; [done|].
      eapply Forall_impl; [exact Hall|]. unfold key_le. intros; lia.
    + constructor; [done|].
      rewrite insert_by_key_perm. constructor; [|done].
      unfold key_le. lia.
Qed.

Lemma sort_by_key_sorted l : StronglySorted key_le (sort_by_key l).
Proof.
  induction l as [|x l IH]; cbn; [constructor|].
  by apply insert_by_key_sorted.
Qed.

(** Among the entries of one key the order is the original one. *)
Lemma insert_by_key_filter (z : Z) x l :
  List.filter (fun y => fst y =? z) (insert_by_key x l)
  = List.filter (fun y => fst y =? z) (x :: l).
Proof.
  induction l as [|y l IH]; [done|]. cbn [insert_by_key].
  destruct (Z.leb_spec (fst x) (fst y)) as [Hle|Hlt]; [done|].
  cbn [List.filter] in *. rewrite IH.
  destruct (Z.eqb_spec (fst x) z), (Z.eqb_spec (fst y) z); (done || lia).
Qed.

Lemma sort_by_key_filter (z : Z) l :
  List.filter (fun y => fst y =? z) (sort_by_key l)
  = List.filter (fun y => fst y =? z) l.
Proof.
  induction l as [|x l IH]; [done|]. cbn [sort_by_key].
  rewrite insert_by_key_filter. cbn [List.filter]. by rewrite IH.
Qed.
End Sort.

(** The sort of a list decorated with its keys, read back on the list. *)
Section Decorated.
Context {A : Type} (key : A -> Z).
Implicit Types (l : list A).

Lemma decorate_keyed l : Forall (keyed key) (decorate key l).
Proof. induction l; constructor; done. Qed.

Lemma decorate_snd l : List.map snd (decorate key l) = l.
Proof. induction l as [|x l IH]; cbn; [done|]. f_equal. exact IH. Qed.

Lemma sorted_decorate_perm l :
  Permutation (List.map snd (sort_by_key (decorate key l))) l.
Proof.
  rewrite <- (decorate_snd l) at 2.
  apply Permutation_map, sort_by_key_perm.
Qed.

Lemma keyed_sorted (ps : list (Z * A)) :
  Forall (keyed key) ps -> StronglySorted key_le ps ->
  StronglySorted (fun x y => key x <= key y) (List.map snd ps).
Proof.
  intros Hk Hs. induction Hs as [|p ps Hs IH Hall]; cbn; [constructor|].
  apply Forall_cons in Hk as [Hp Hps].
  constructor; [by apply IH|].
  rewrite Forall_map. rewrite Forall_forall in Hall, Hps |- *.
  intros q Hq. specialize (Hall q Hq). specialize (Hps q Hq).
  unfold key_le, keyed in *. cbn. lia.
Qed.

Lemma sorted_decorate_sorted l :
  StronglySorted (fun x y => key x <= key y)
    (List.map snd (sort_by_key (decorate key l))).
Proof.
  apply keyed_sorted; [|apply sort_by_key_sorted].
  eapply Permutation_Forall; [symmetry; apply sort_by_key_perm|].
  apply decorate_keyed.
Qed.

Lemma keyed_filter (z : Z) (ps : list (Z * A)) :
  Forall (keyed key) ps ->
  List.filter (fun x => key x =? z) (List.map snd ps)
  = List.map snd (List.filter (fun p => fst p =? z) ps).
Proof.
  induction 1 as [|p ps Hp _ IH]; [done|]. cbn.
  unfold keyed in Hp. rewrite Hp, IH. by destruct (key (snd p) =? z).
Qed.

Lemma sorted_decorate_stable (z : Z) l :
  List.filter (fun x => key x =? z) (List.map snd (sort_by_key (decorate key l)))
  = List.filter (fun x => key x =? z) l.
Proof.
  rewrite keyed_filter.
  - rewrite sort_by_key_filter.
    rewrite <- (keyed_filter z (decorate key l)) by apply decorate_keyed.
    by rewrite decorate_snd.
  - eapply Permutation_Forall; [symmetry; apply sort_by_key_perm|].
    apply decorate_keyed.
Qed.
End Decorated.

(** ** The ranker *)

Lemma setitem_same (σ : store) (m : loc) (k : pystr) (v : pyvalue) :
  setitem σ m k v m = dict_set k v (σ m).
Proof. unfold setitem. by rewrite Nat.eqb_refl. Qed.

Lemma setitem_other (σ : store) (m m' : loc) (k : pystr) (v : pyvalue) :
  m' <> m -> setitem σ m k v m' = σ m'.
Proof. intros Hne. unfold setitem. by apply Nat.eqb_neq in Hne as ->. Qed.

Lemma setitem_get_ne (σ : store) (m m' : loc) (k k' : pystr) (v : pyvalue) :
  k <> k' -> dict_get k' (setitem σ m k v m') = dict_get k' (σ m').
Proof.
  intros Hne. unfold setitem. destruct (Nat.eqb_spec m' m) as [->|]; [|done].
  by apply dict_get_set_ne.
Qed.

Section RankFacts.
Variable http_get : nat -> url -> pydict -> http_outcome.

Lemma fetches_succeed_ext (ms : list loc) (n : nat) (σ σ' : store) :
  (forall m, dict_get (lit "iri") (σ' m) = dict_get (lit "iri") (σ m)) ->
  (forall m, dict_get (lit "ontology_name") (σ' m)
             = dict_get (lit "ontology_name") (σ m)) ->
  fetches_succeed http_get n σ ms -> fetches_succeed http_get n σ' ms.
Proof.
  intros Hiri Hont. revert n.
  induction ms as [|m ms IH]; intros n; [done|].
  cbn [fetches_succeed]. rewrite Hiri, Hont.
  intros [Hm Hrest]. split; [done|]. by apply IH.
Qed.

Lemma rank_loop_app (a b : list loc) (n : nat) (σ : store) (acc : list loc) :
  rank_loop http_get n σ (a ++ b) acc
  = rank_loop http_get n σ a acc ≫=
      (fun r => rank_loop http_get (n + length a) r.1 b r.2).
Proof.
  revert n σ acc. induction a as [|m a IH]; intros n σ acc.
  - cbn. by rewrite Nat.add_0_r.
  - cbn [rank_loop app length].
    destruct (getitem (σ m) (lit "iri")) as [iri|e]; [|done].
    rewrite !bind_Ok.
    destruct (getitem (σ m) (lit "ontology_name")) as [ontology|e]; [|done].
    rewrite !bind_Ok.
    destruct (get_term_ancestors http_get n ontology iri) as [[l|e]|e]; [|done..].
    rewrite !bind_Ok. cbn [py_len]. rewrite !bind_Ok.
    rewrite IH. by rewrite Nat.add_succ_r.
Qed.

Lemma rank_loop_spec (ms : list loc) (n : nat) (σ : store) (acc : list loc) :
  fetches_succeed http_get n σ ms ->
  exists σ', rank_loop http_get n σ ms acc = Ok (σ', acc ++ ms) /\
             augmented http_get n σ ms σ'.
Proof.
  revert n σ acc. induction ms as [|m0 rest IH]; intros n σ acc Hfetch.
  - exists σ. cbn. rewrite app_nil_r. split; [done|].
    split; [done|]. split; [intros m []|done].
  - destruct Hfetch as [(iri & ontology & anc & Hiri & Hont & Hanc) Hrest].
    set (σ1 := setitem σ m0 (lit "ancestors") (PList anc)).
    set (σ2 := setitem σ1 m0 (lit "distance_from_root")
                  (PInt (Z.of_nat (length anc)))).
    assert (Hframe : forall m k,
               k <> lit "ancestors" -> k <> lit "distance_from_root" ->
               dict_get k (σ2 m) = dict_get k (σ m)).
    { intros m k Ha Hd. unfold σ2, σ1.
      rewrite !setitem_get_ne; [done|congruence..]. }
    assert (Hσ2 : σ2 m0 = dict_set (lit "distance_from_root")
                             (PInt (Z.of_nat (length anc)))
                             (dict_set (lit "ancestors") (PList anc) (σ m0))).
    { unfold σ2, σ1. by rewrite !setitem_same. }
    destruct (IH (S n) σ2 (acc ++ [m0])) as (σ3 & Hloop & Hout & Hin & Hkeys).
    { eapply fetches_succeed_ext; [| |exact Hrest]; intros m; by apply Hframe. }
    exists σ3. split; [|split; [|split]].
    + cbn [rank_loop].
      rewrite (getitem_Some _ _ _ Hiri), bind_Ok.
      rewrite (getitem_Some _ _ _ Hont), bind_Ok.
      rewrite Hanc, bind_Ok. cbn [py_len]. rewrite !bind_Ok.
      fold σ1. fold σ2. rewrite Hloop. by rewrite <- app_assoc.
    + intros m Hm. rewrite Hout by (intros ?; apply Hm; by right).
      unfold σ2, σ1. rewrite !setitem_other; [done|..];
        intros ->; apply Hm; by left.
    + intros m Hm.
      destruct (in_dec Nat.eq_dec m rest) as [Hrest_in|Hrest_out].
      * destruct (Hin m Hrest_in) as (anc' & (i & iri' & ont' & Hi & Hi1 & Hi2 & Hi3)
                                      & Ha & Hd).
        exists anc'. split; [|done].
        exists (S i), iri', ont'. split; [done|].
        rewrite <- (Hframe m (lit "iri")) by done.
        rewrite <- (Hframe m (lit "ontology_name")) by done.
        split; [done|]. split; [done|].
        by rewrite Nat.add_succ_r.
      * destruct Hm as [<-|Hm]; [|done].
        exists anc. rewrite (Hout m0 Hrest_out), Hσ2. split; [|split].
        -- exists 0%nat, iri, ontology. by rewrite Nat.add_0_r.
        -- rewrite dict_get_set_ne by done. apply dict_get_set_eq.
        -- apply dict_get_set_eq.
    + intros m k Ha Hd. rewrite Hkeys by done. by apply Hframe.
Qed.

Lemma mapM_distance_key (σ : store) (ms : list loc) :
  (forall m, In m ms ->
     exists z, dict_get (lit "distance_from_root") (σ m) = Some (PInt z)) ->
  mapM (distance_key σ) ms = Ok (decorate (distance_from_root σ) ms).
Proof.
  induction ms as [|m ms IH]; intros Hall; [done|].
  destruct (Hall m) as [z Hz]; [by left|].
  assert (Hkey : distance_key σ m = Ok (distance_from_root σ m, m)).
  { unfold distance_key, distance_from_root, getitem. by rewrite Hz. }
  cbn [mapM]. rewrite Hkey, bind_Ok.
  rewrite IH by (intros ? ?; apply Hall; by right).
  by rewrite bind_Ok.
Qed.

(** The ranker on a list whose fetches all succeed. *)
Lemma rank_spec (ms : list loc) (n : nat) (σ : store) :
  fetches_succeed http_get n σ ms ->
  exists σ',
    rank_ontology_matches_by_distance http_get n σ ms
      = Ok (σ', List.map snd
                  (sort_by_key (decorate (distance_from_root σ') ms))) /\
    augmented http_get n σ ms σ'.
Proof.
  intros Hfetch.
  destruct (rank_loop_spec ms n σ [] Hfetch) as (σ' & Hloop & Haug).
  exists σ'. split; [|done].
  unfold rank_ontology_matches_by_distance. rewrite Hloop, bind_Ok.
  cbn [app]. rewrite mapM_distance_key; [done|].
  intros m Hm. destruct Haug as (_ & Hin & _).
  destruct (Hin m Hm) as (anc & _ & _ & Hd). eauto.
Qed.
End RankFacts.


(** C2: when the ancestors request made for one concept of the list fails,
    [get_term_ancestors] hands back the exception object, not an empty
    list, and the ranker stops with a [TypeError] at [len]: the concept
    gets no distance and the remaining concepts are not ranked. *)
Theorem rank_stops_on_failed_fetch
    (http_get : nat -> url -> pydict -> http_outcome) (n : nat) (σ : store)
    (before : list loc) (m : loc) (rest : list loc) (iri ontology : pyvalue)
    (inner iri_encoded : pystr) :
  fetches_succeed http_get n σ before ->
  dict_get (lit "iri") (σ m) = Some iri ->
  dict_get (lit "ontology_name") (σ m) = Some ontology ->
  quote iri (lit "") = Ok inner ->
  quote (PStr inner) (lit "/") = Ok iri_encoded ->
  request_failed
    (http_get (n + length before)%nat (AncestorsUrl ontology iri_encoded)
       [ (lit "lang", PStr (lit "en")) ]) ->
  (exists e,
      get_term_ancestors http_get (n + length before) ontology iri
      = Ok (AncError e)) /\
  rank_ontology_matches_by_distance http_get n σ (before ++ m :: rest)
    = Raise TypeError.
Proof.
  intros Hbefore Hiri Hont Hq1 Hq2 Hfail.
  destruct (http_json_failed _ _ _ _ Hfail) as [e He].
  assert (Hanc : get_term_ancestors http_get (n + length before) ontology iri
                 = Ok (AncError e)).
  { unfold get_term_ancestors. by rewrite Hq1, bind_Ok, Hq2, bind_Ok, He. }
  split; [by exists e|].
  destruct (rank_loop_spec http_get before n σ [] Hbefore)
    as (σ' & Hloop & _ & _ & Hkeys).
  unfold rank_ontology_matches_by_distance.
  rewrite rank_loop_app, Hloop, bind_Ok. cbn [rank_loop fst snd].
  rewrite <- (Hkeys m (lit "iri")) in Hiri by done.
  rewrite <- (Hkeys m (lit "ontology_name")) in Hont by done.
  rewrite (getitem_Some _ _ _ Hiri), bind_Ok.
  rewrite (getitem_Some _ _ _ Hont), bind_Ok.
  by rewrite Hanc.
Qed.

Lemma rank_stops_on_failed_fetch_witness :
  (exists e,
      get_term_ancestors Scenario.flaky 1 (PStr (lit "efo"))
        (PStr (lit "http://www.ebi.ac.uk/efo/EFO_0000408")) = Ok (AncError e)) /\
  rank_ontology_matches_by_distance Scenario.flaky 0 Scenario.records
    [0%nat; 1%nat; 0%nat] = Raise TypeError.
Proof.
  eapply (rank_stops_on_failed_fetch Scenario.flaky 0 Scenario.records
            [0%nat] 1%nat [0%nat]).
  - split; [|exact I].
    eexists _, _, _. split; [reflexivity|]. split; [reflexivity|].
    vm_compute. reflexivity.
  - reflexivity.
  - reflexivity.
  - vm_compute. reflexivity.
  - vm_compute. reflexivity.
  - exact I.
Defined.

(** C5: when the fetch made for every concept hands back a list, the
    ranker returns the concepts of its input, sorted ascending by
    [distance_from_root] (the number of ancestors fetched for the concept),
    concepts of equal distance in their original relative order; a list
    [A; B] where more ancestors are fetched for A than for B (3 and 1, for
    instance) comes back as [B; A]. *)
Theorem rank_sorted_stable
    (http_get : nat -> url -> pydict -> http_outcome) (n : nat) (σ : store)
    (ontology_matches : list loc) :
  fetches_succeed http_get n σ ontology_matches ->
  exists σ' ranked,
    rank_ontology_matches_by_distance http_get n σ ontology_matches
      = Ok (σ', ranked) /\
    Permutation ranked ontology_matches /\
    StronglySorted (by_distance σ') ranked /\
    (forall z,
        List.filter (fun m => distance_from_root σ' m =? z) ranked
        = List.filter (fun m => distance_from_root σ' m =? z) ontology_matches) /\
    (forall m, In m ontology_matches ->
       exists ancestors,
         fetched_for http_get n σ ontology_matches m ancestors /\
         distance_from_root σ' m = Z.of_nat (length ancestors)) /\
    (forall a b iri_a ontology_a iri_b ontology_b ancestors_a ancestors_b,
        ontology_matches = [a; b] ->
        dict_get (lit "iri") (σ a) = Some iri_a ->
        dict_get (lit "ontology_name") (σ a) = Some ontology_a ->
        dict_get (lit "iri") (σ b) = Some iri_b ->
        dict_get (lit "ontology_name") (σ b) = Some ontology_b ->
        get_term_ancestors http_get n ontology_a iri_a = Ok (AncList ancestors_a) ->
        get_term_ancestors http_get (S n) ontology_b iri_b
          = Ok (AncList ancestors_b) ->
        (length ancestors_b < length ancestors_a)%nat ->
        ranked = [b; a]).
Proof.
  intros Hfetch.
  destruct (rank_spec http_get ontology_matches n σ Hfetch)
    as (σ' & Hrank & Hout & Hin & Hkeys).
  assert (Hdist : forall m, In m ontology_matches ->
            exists ancestors,
              fetched_for http_get n σ ontology_matches m ancestors /\
              distance_from_root σ' m = Z.of_nat (length ancestors)).
  { intros m Hm. destruct (Hin m Hm) as (anc & Hf & _ & Hd).
    exists anc. split; [done|]. unfold distance_from_root. by rewrite Hd. }
  eexists σ', _. split; [exact Hrank|].
  split; [apply sorted_decorate_perm|].
  split; [apply sorted_decorate_sorted|].
  split; [intros z; apply sorted_decorate_stable|].
  split; [exact Hdist|].
  intros a b iri_a ont_a iri_b ont_b la lb -> Ha1 Ha2 Hb1 Hb2 Hfa Hfb Hlt.
  cbn. destruct (Nat.eq_dec a b) as [->|Hab].
  { by destruct (_ <=? _). }
  assert (Hda : distance_from_root σ' a = Z.of_nat (length la)).
  { destruct (Hdist a) as (anc & (i & iri & ont & Hi & Hi1 & Hi2 & Hi3) & ->);
      [by left|].
    destruct i as [|[|i]]; [|cbn in Hi; congruence|done].
    rewrite Nat.add_0_r in Hi3. congruence. }
  assert (Hdb : distance_from_root σ' b = Z.of_nat (length lb)).
  { destruct (Hdist b) as (anc & (i & iri & ont & Hi & Hi1 & Hi2 & Hi3) & ->);
      [by right; left|].
    destruct i as [|[|i]]; [cbn in Hi; congruence| |done].
    rewrite Nat.add_1_r in Hi3. congruence. }
  rewrite Hda, Hdb.
  destruct (Z.leb_spec (Z.of_nat (length la)) (Z.of_nat (length lb))); [lia|done].
Qed.

Lemma rank_sorted_stable_witness :
  fetches_succeed Scenario.healthy 0 Scenario.records [0%nat; 1%nat] /\
  exists σ' ranked,
    rank_ontology_matches_by_distance Scenario.healthy 0 Scenario.records
      [0%nat; 1%nat] = Ok (σ', ranked) /\
    Permutation ranked [0%nat; 1%nat] /\
    StronglySorted (by_distance σ') ranked /\
    ranked = [1%nat; 0%nat].
Proof.
  assert (Hfetch : fetches_succeed Scenario.healthy 0 Scenario.records
                     [0%nat; 1%nat]).
  { split; [|split; [|exact I]].
    - eexists _, _, _. split; [reflexivity|]. split; [reflexivity|].
      vm_compute. reflexivity.
    - eexists _, _, _. split; [reflexivity|]. split; [reflexivity|].
      vm_compute. reflexivity. }
  split; [exact Hfetch|].
  destruct (rank_sorted_stable Scenario.healthy 0 Scenario.records
              [0%nat; 1%nat] Hfetch)
    as (σ' & ranked & Hrank & Hperm & Hsorted & _ & _ & Horder).
  exists σ', ranked.
  split; [exact Hrank|]. split; [exact Hperm|]. split; [exact Hsorted|].
  eapply (Horder 0%nat 1%nat); [reflexivity..| | |].
  - vm_compute. reflexivity.
  - vm_compute. reflexivity.
  - cbn. lia.
Defined.

(** C10, as stated, fails: the ranker returns nothing when the IRI of a
    record is not a string ([quote] rejects it), and nothing when a fetch
    fails. *)
Lemma rank_returns_nothing :
  dict_get (lit "iri") (Scenario.null_iri_records 0%nat) = Some PNone /\
  dict_get (lit "ontology_name") (Scenario.null_iri_records 0%nat)
    = Some (PStr (lit "efo")) /\
  rank_ontology_matches_by_distance Scenario.healthy 0
    Scenario.null_iri_records [0%nat] = Raise TypeError /\
  rank_ontology_matches_by_distance Scenario.down 0 Scenario.records
    [0%nat; 1%nat] = Raise TypeError.
Proof. split; [|split; [|split]]; vm_compute; reflexivity. Qed.

(** C10, amended: when the fetch made for every record hands back a list,
    the ranker returns a permutation of the very references it was given;
    every listed record then holds under [ancestors] a list fetched for it
    and under [distance_from_root] the length of that list; every other
    field of every record is as before (none changed, added or removed),
    and records outside the list are untouched. *)
Theorem rank_augments_in_place
    (http_get : nat -> url -> pydict -> http_outcome) (n : nat) (σ : store)
    (ontology_matches : list loc) :
  fetches_succeed http_get n σ ontology_matches ->
  exists σ' ranked,
    rank_ontology_matches_by_distance http_get n σ ontology_matches
      = Ok (σ', ranked) /\
    Permutation ranked ontology_matches /\
    (forall m, In m ontology_matches ->
       exists ancestors,
         fetched_for http_get n σ ontology_matches m ancestors /\
         dict_get (lit "ancestors") (σ' m) = Some (PList ancestors) /\
         dict_get (lit "distance_from_root") (σ' m)
           = Some (PInt (Z.of_nat (length ancestors)))) /\
    (forall m k,
        k <> lit "ancestors" -> k <> lit "distance_from_root" ->
        dict_get k (σ' m) = dict_get k (σ m)) /\
    (forall m, ~ In m ontology_matches -> σ' m = σ m).
Proof.
  intros Hfetch.
  destruct (rank_spec http_get ontology_matches n σ Hfetch)
    as (σ' & Hrank & Hout & Hin & Hkeys).
  eexists σ', _. split; [exact Hrank|].
  split; [apply sorted_decorate_perm|]. done.
Qed.

Lemma rank_augments_in_place_witness :
  fetches_succeed Scenario.healthy 0 Scenario.records [0%nat; 1%nat] /\
  exists σ' ranked,
    rank_ontology_matches_by_distance Scenario.healthy 0 Scenario.records
      [0%nat; 1%nat] = Ok (σ', ranked) /\
    Permutation ranked [0%nat; 1%nat] /\
    dict_get (lit "label") (σ' 0%nat) = Some (PStr (lit "A")) /\
    dict_get (lit "short_form") (σ' 1%nat) = Some (PStr (lit "No Short Form")) /\
    σ' 2%nat = Scenario.records 2%nat.
Proof.
  assert (Hfetch : fetches_succeed Scenario.healthy 0 Scenario.records
                     [0%nat; 1%nat]).
  { split; [|split; [|exact I]].
    - eexists _, _, _. split; [reflexivity|]. split; [reflexivity|].
      vm_compute. reflexivity.
    - eexists _, _, _. split; [reflexivity|]. split; [reflexivity|].
      vm_compute. reflexivity. }
  split; [exact Hfetch|].
  destruct (rank_augments_in_place Scenario.healthy 0 Scenario.records
              [0%nat; 1%nat] Hfetch)
    as (σ' & ranked & Hrank & Hperm & _ & Hkeys & Hout).
  exists σ', ranked.
  split; [exact Hrank|]. split; [exact Hperm|].
  split; [|split].
  - rewrite Hkeys; [reflexivity|discriminate..].
  - rewrite Hkeys; [reflexivity|discriminate..].
  - apply Hout. intros [H|[H|[]]]; discriminate H.
Defined.

(** ** What the extractor stores under [peco_elements] *)

Section DictKeys.
Context {V : Type}.
Implicit Types (d : dict V) (k : pystr) (v : V).

Lemma dict_set_Forall (P : pystr * V -> Prop) k v d :
  (forall k', k' = k -> P (k', v)) -> Forall P d -> Forall P (dict_set k v d).
Proof.
  intros Hk. induction 1 as [|[k0 v0] d H0 Hd IH]; cbn.
  - constructor; [by apply Hk|constructor].
  - destruct (str_eqb k k0) eqn:E.
    + apply bool_decide_eq_true in E as <-. constructor; [by apply Hk|done].
    + by constructor.
Qed.

Lemma dict_keys_set_present k v d :
  dict_mem k d = true -> dict_keys (dict_set k v d) = dict_keys d.
Proof.
  unfold dict_mem, dict_keys. induction d as [|[k0 v0] d IH]; cbn; [done|].
  destruct (str_eqb k k0) eqn:E; cbn; [done|].
  intros H. by rewrite IH.
Qed.

Lemma dict_get_In k v d : dict_get k d = Some v -> In (k, v) d.
Proof.
  induction d as [|[k0 v0] d IH]; cbn; [done|].
  destruct (str_eqb k k0) eqn:E.
  - apply bool_decide_eq_true in E as <-. intros [= ->]. by left.
  - intros H. right. by apply IH.
Qed.

Lemma dict_get_keys k d : In k (dict_keys d) -> dict_mem k d = true.
Proof.
  unfold dict_mem, dict_keys. induction d as [|[k0 v0] d IH]; cbn; [done|].
  destruct (str_eqb k k0) eqn:E; [done|].
  intros [->|H]; [by rewrite str_eqb_refl in E|by apply IH].
Qed.
End DictKeys.

Lemma annotation_map_categories (color_key category : pystr) :
  dict_get color_key annotation_map = Some category -> In category categories.
Proof.
  unfold annotation_map, categories. cbn [dict_get].
  repeat (destruct (str_eqb color_key _); [intros [= <-]; cbn; tauto|]).
  done.
Qed.

Lemma peco_run_categories (m : dict (list pystr)) (statement : pystr) (run : Run) :
  Forall (fun kv => In (fst kv) categories) m ->
  Forall (fun kv => In (fst kv) categories) (fst (peco_run (m, statement) run)).
Proof.
  intros Hm. unfold peco_run. cbn [fst].
  destruct (color_truthy _ && str_truthy _); [|done].
  destruct (dict_get _ annotation_map) as [category|] eqn:E; [|done].
  apply annotation_map_categories in E.
  apply dict_set_Forall; [by intros ? ->|].
  destruct (dict_mem category m); [done|].
  apply dict_set_Forall; [by intros ? ->|done].
Qed.

Lemma peco_cell_scan_categories (peco_cell : Cell) :
  Forall (fun kv => In (fst kv) categories) (fst (peco_cell_scan peco_cell)).
Proof.
  unfold peco_cell_scan.
  assert (Hruns : forall rs acc,
             Forall (fun kv => In (fst kv) categories) (fst acc) ->
             Forall (fun kv => In (fst kv) categories)
               (fst (fold_left peco_run rs acc))).
  { induction rs as [|run rs IH]; intros [m st] Hacc; [done|].
    cbn [fold_left]. apply IH. by apply peco_run_categories. }
  assert (Hparas : forall ps acc,
             Forall (fun kv => In (fst kv) categories) (fst acc) ->
             Forall (fun kv => In (fst kv) categories)
               (fst (fold_left peco_paragraph ps acc))).
  { induction ps as [|para ps IH]; intros acc Hacc; [done|].
    cbn [fold_left]. apply IH. by apply Hruns. }
  apply Hparas. constructor.
Qed.

Lemma scan_row_phrases (d d' : pydict) (row : Row) :
  scan_row d row = Ok d' -> phrases_if_any d -> phrases_if_any d'.
Proof.
  unfold scan_row, phrases_if_any.
  destruct (cells row) as [|first others]; [done|].
  pose proof (peco_cell_scan_categories (List.last (first :: others) first)) as Hcat.
  destruct (peco_cell_scan (List.last (first :: others) first)) as [m statement].
  destruct (contains (lit "PECO statement") (strip (cell_text first))).
  - intros [= <-] _ v.
    rewrite dict_get_set_ne by done. rewrite dict_get_set_eq.
    intros [= <-]. by exists m.
  - intros [= <-] Hd v. rewrite !route_get_ne by done. apply Hd.
Qed.

Lemma scan_rows_phrases (rs : list Row) (d d' : pydict) :
  scan_rows d rs = Ok d' -> phrases_if_any d -> phrases_if_any d'.
Proof.
  revert d. induction rs as [|row rs IH]; intros d; cbn [scan_rows].
  - by intros [= <-].
  - destruct (scan_row d row) as [d1|e] eqn:E; [|done].
    rewrite bind_Ok. intros Hrest Hd. apply (IH d1 Hrest).
    by apply (scan_row_phrases d d1 row).
Qed.

Lemma scan_tables_phrases (ts : list Table) (acc recs : list pydict) :
  scan_tables acc ts = Ok recs ->
  Forall phrases_if_any acc -> Forall phrases_if_any recs.
Proof.
  revert acc. induction ts as [|table ts IH]; intros acc; cbn [scan_tables].
  - by intros [= <-].
  - destruct (scan_rows [] (rows table)) as [d|e] eqn:E; [|done].
    rewrite bind_Ok. intros Hrest Hacc. apply (IH _ Hrest).
    assert (Hd : phrases_if_any d).
    { apply (scan_rows_phrases _ _ _ E). by intros v. }
    destruct (dict_truthy d); [|done].
    apply Forall_app. split; [done|]. by constructor.
Qed.

(** ** The enrichment loop on complete annotations *)

Lemma append_element_ok (annotation_d : pydict) (peco_element : pystr)
    (entry : pyvalue) :
  four_lists annotation_d ->
  In peco_element categories ->
  exists d', append_element annotation_d peco_element entry = Ok d' /\
             four_lists d' /\
             forall k, k <> lit "peco_elements" ->
                       dict_get k d' = dict_get k annotation_d.
Proof.
  intros (elements & Hget & Hkeys & Hlists) Hcat.
  assert (Hmem : dict_mem peco_element elements = true).
  { apply dict_get_keys. by rewrite Hkeys. }
  unfold dict_mem in Hmem.
  destruct (dict_get peco_element elements) as [current|] eqn:Ecur; [|done].
  assert (Hcur : exists entries, current = PList entries).
  { pose proof (dict_get_In _ _ _ Ecur) as Hin.
    rewrite List.Forall_forall in Hlists. apply (Hlists _ Hin). }
  destruct Hcur as [entries ->].
  eexists. split; [|split].
  - unfold append_element. rewrite (getitem_Some _ _ _ Hget), bind_Ok.
    by rewrite (getitem_Some _ _ _ Ecur), bind_Ok.
  - eexists. split; [apply dict_get_set_eq|]. split.
    + rewrite dict_keys_set_present; [done|]. unfold dict_mem. by rewrite Ecur.
    + apply dict_set_Forall; [intros ? _; by eexists|done].
  - intros k Hk. by apply dict_get_set_ne.
Qed.

Section EnrichmentFacts.
Variable http_get : nat -> url -> pydict -> http_outcome.
Variable json_dumps : pyvalue -> pystr.
Hypothesis Hsearch : searches_succeed http_get json_dumps.

Lemma enrich_texts_ok (el_texts : list pyvalue) (n : nat) (annotation_d : pydict)
    (peco_element : pystr) :
  four_lists annotation_d ->
  In peco_element categories ->
  exists d' n',
    enrich_texts http_get json_dumps n annotation_d peco_element el_texts
      = Ok (d', n') /\
    four_lists d' /\
    forall k, k <> lit "peco_elements" -> dict_get k d' = dict_get k annotation_d.
Proof.
  revert n annotation_d.
  induction el_texts as [|text rest IH]; intros n d Hd Hcat.
  - by exists d, n.
  - destruct (Hsearch n text) as (js & ms & Hr).
    destruct (append_element_ok d peco_element
                (PDict [ (lit "text", text);
                         (lit "matches", PList (List.map PDict ms)) ]) Hd Hcat)
      as (d1 & H1 & Hd1 & Hf1).
    destruct (IH (S n) d1 Hd1 Hcat) as (d2 & n2 & H2 & Hd2 & Hf2).
    exists d2, n2. split; [|split; [done|]].
    + cbn [enrich_texts]. rewrite Hr, bind_Ok. by rewrite H1, bind_Ok.
    + intros k Hk. rewrite Hf2 by done. by apply Hf1.
Qed.

Lemma enrich_elements_ok (items : list (pystr * pyvalue)) (n : nat)
    (annotation_d : pydict) :
  Forall (fun kv => In (fst kv) categories /\ exists texts, snd kv = PList texts)
    items ->
  four_lists annotation_d ->
  exists d' n',
    enrich_elements http_get json_dumps n annotation_d items = Ok (d', n') /\
    four_lists d' /\
    forall k, k <> lit "peco_elements" -> dict_get k d' = dict_get k annotation_d.
Proof.
  intros Hitems. revert n annotation_d.
  induction Hitems as [|[peco_element el_texts] items [Hcat [texts Hlist]] _ IH];
    intros n d Hd.
  - by exists d, n.
  - cbn in Hcat, Hlist. subst el_texts.
    destruct (enrich_texts_ok texts n d peco_element Hd Hcat)
      as (d1 & n1 & H1 & Hd1 & Hf1).
    destruct (IH n1 d1 Hd1) as (d2 & n2 & H2 & Hd2 & Hf2).
    exists d2, n2. split; [|split; [done|]].
    + cbn [enrich_elements py_iter]. rewrite bind_Ok, H1, bind_Ok. exact H2.
    + intros k Hk. rewrite Hf2 by done. by apply Hf1.
Qed.

Lemma phrases_value_items (v : pyvalue) :
  phrases_value v ->
  exists items,
    py_items v = Ok items /\
    Forall (fun kv => In (fst kv) categories /\ exists texts, snd kv = PList texts)
      items.
Proof.
  intros (m & -> & Hm). eexists. split; [reflexivity|].
  rewrite Forall_map. eapply Forall_impl; [exact Hm|].
  intros [k l] Hk. split; [done|]. by eexists.
Qed.

Lemma complete_fields (annotation : pydict) :
  complete annotation = true ->
  forall field, In field required_fields ->
                exists v, dict_get field annotation = Some v.
Proof.
  unfold complete. rewrite forallb_forall. intros Hall field Hin.
  specialize (Hall field Hin). unfold dict_mem in Hall.
  destruct (dict_get field annotation); [by eexists|done].
Qed.

Lemma incomplete_field (annotation : pydict) :
  complete annotation = false ->
  exists field, In field required_fields /\ dict_get field annotation = None.
Proof.
  unfold complete. generalize required_fields.
  induction l as [|field l IH]; cbn [forallb]; [done|].
  unfold dict_mem at 1.
  destruct (dict_get field annotation) eqn:E.
  - intros Hrest. destruct (IH Hrest) as (missing & Hin & Hnone).
    exists missing. split; [by right|done].
  - intros _. exists field. split; [by left|done].
Qed.

Lemma enrich_annotation_ok (n : nat) (annotation : pydict) :
  complete annotation = true ->
  phrases_if_any annotation ->
  exists d n',
    enrich_annotation http_get json_dumps n annotation = Ok (d, n') /\
    enriched_from annotation d.
Proof.
  intros Hc Hp. pose proof (complete_fields annotation Hc) as Hf.
  destruct (Hf (lit "doc_title")) as [v1 E1];
    [repeat (first [left; reflexivity | right])|].
  destruct (Hf (lit "peco_elements")) as [v2 E2];
    [repeat (first [left; reflexivity | right])|].
  destruct (Hf (lit "doc_lastauthorname")) as [v3 E3];
    [repeat (first [left; reflexivity | right])|].
  destruct (Hf (lit "doc_year")) as [v4 E4];
    [repeat (first [left; reflexivity | right])|].
  destruct (Hf (lit "doc_url")) as [v5 E5];
    [repeat (first [left; reflexivity | right])|].
  destruct (Hf (lit "doc_peco_section")) as [v6 E6];
    [repeat (first [left; reflexivity | right])|].
  destruct (Hf (lit "peco_statement")) as [v7 E7];
    [repeat (first [left; reflexivity | right])|].
  destruct (phrases_value_items v2 (Hp v2 E2)) as (items & Hitems & Hshape).
  set (annotation_d :=
         [ (lit "doc_title", v1); (lit "doc_lastauthorname", v3);
           (lit "doc_year", v4); (lit "url", v5);
           (lit "doc_peco_section", v6); (lit "peco_statement", v7);
           (lit "peco_elements",
             PDict [ (lit "Population", PList []); (lit "Exposure", PList []);
                     (lit "Comparator", PList []); (lit "Outcome", PList []) ]) ]).
  assert (H4 : four_lists annotation_d).
  { eexists. split; [reflexivity|]. split; [reflexivity|].
    repeat constructor; by eexists. }
  destruct (enrich_elements_ok items n annotation_d Hshape H4)
    as (d & n' & Hd & (elements & Hel) & Hframe).
  exists d, n'. split.
  - unfold enrich_annotation.
    rewrite (getitem_Some _ _ _ E1), (getitem_Some _ _ _ E2),
      (getitem_Some _ _ _ E3), (getitem_Some _ _ _ E4),
      (getitem_Some _ _ _ E5), (getitem_Some _ _ _ E6),
      (getitem_Some _ _ _ E7).
    rewrite !bind_Ok. rewrite Hitems, bind_Ok. exact Hd.
  - unfold enriched_from.
    rewrite !Hframe by done. rewrite E1, E3, E4, E5, E6, E7.
    repeat (split; [reflexivity|]). by exists elements.
Qed.

Lemma enrichment_loop_ok (annotations : list pydict) (n : nat)
    (parsed_output : list pydict) :
  forallb complete annotations = true ->
  Forall phrases_if_any annotations ->
  exists out,
    enrichment_loop http_get json_dumps n annotations parsed_output
      = Ok (parsed_output ++ out) /\
    Forall2 enriched_from annotations out.
Proof.
  intros Hc Hp. revert n parsed_output Hc.
  induction Hp as [|annotation rest Ha _ IH]; intros n acc Hc.
  - exists []. by rewrite app_nil_r.
  - cbn [forallb] in Hc. apply andb_true_iff in Hc as [Hca Hcr].
    destruct (enrich_annotation_ok n annotation Hca Ha) as (d & n' & Hd & He).
    destruct (IH n' (acc ++ [d]) Hcr) as (out & Hout & Hall).
    exists (d :: out). split; [|by constructor].
    cbn [enrichment_loop]. rewrite Hd, bind_Ok, Hout. by rewrite <- app_assoc.
Qed.

Lemma enrichment_loop_incomplete (annotations : list pydict) (n : nat)
    (parsed_output : list pydict) :
  forallb complete annotations = false ->
  Forall phrases_if_any annotations ->
  exists annotation missing,
    In annotation annotations /\
    In missing required_fields /\
    dict_get missing annotation = None /\
    enrichment_loop http_get json_dumps n annotations parsed_output
      = Raise (KeyError missing).
Proof.
  intros Hc Hp. revert n parsed_output Hc.
  induction Hp as [|annotation rest Ha _ IH]; intros n acc Hc; [done|].
  cbn [forallb] in Hc. destruct (complete annotation) eqn:Hca.
  - destruct (enrich_annotation_ok n annotation Hca Ha) as (d & n' & Hd & _).
    destruct (IH n' (acc ++ [d]) Hc) as (a & missing & Hin & Hm & Hnone & Hloop).
    exists a, missing. split; [by right|]. split; [done|]. split; [done|].
    cbn [enrichment_loop]. by rewrite Hd, bind_Ok.
  - destruct (incomplete_field annotation Hca) as (field & Hin & Hnone).
    destruct (enrichment_loop_missing_field http_get json_dumps n annotation
                rest acc field Hin Hnone) as (missing & Hm & Hmn & Hloop).
    exists annotation, missing. split; [by left|done].
Qed.
End EnrichmentFacts.

(** C4, as stated, fails: the table with a PECO-statement row and no
    other row yields an annotation without title, and the enrichment loop
    stops on it with a [KeyError] instead of producing a record. *)
Lemma script_stops_without_title :
  extract_peco_highlights_from_tables Scenario.peco_only_doc
    = Ok [ [ (lit "peco_elements",
               PDict [ (lit "Population", PList [PStr (lit "elderly adults")]) ]);
             (lit "peco_statement", PStr (lit "elderly adults were studied ")) ] ] /\
  script Scenario.healthy Scenario.dumps Scenario.peco_only_doc
    = Raise (KeyError (lit "doc_title")).
Proof. split; vm_compute; reflexivity. Qed.

(** C4, amended: a missing row never makes the extraction fail, it only
    leaves its field out of the table's annotation.  When every search
    hands back results, the enrichment loop produces one record per
    annotation, carrying the annotation's metadata and one list per
    category, exactly when every annotation carries the seven fields the
    loop reads; otherwise it stops with a [KeyError] for a field that one
    of the annotations lacks. *)
Theorem script_on_complete_annotations
    (http_get : nat -> url -> pydict -> http_outcome)
    (json_dumps : pyvalue -> pystr) (doc : Document) :
  rows_have_cells (tables doc) ->
  searches_succeed http_get json_dumps ->
  exists annotations,
    extract_peco_highlights_from_tables doc = Ok annotations /\
    (forallb complete annotations = true ->
     exists parsed_output,
       script http_get json_dumps doc = Ok parsed_output /\
       Forall2 enriched_from annotations parsed_output) /\
    (forallb complete annotations = false ->
     exists annotation missing,
       In annotation annotations /\
       In missing required_fields /\
       dict_get missing annotation = None /\
       script http_get json_dumps doc = Raise (KeyError missing)).
Proof.
  intros Hcells Hsearch.
  destruct (scan_tables_count (tables doc) [] Hcells) as (annotations & Hx & _).
  cbn [app] in Hx.
  assert (Hp : Forall phrases_if_any annotations).
  { apply (scan_tables_phrases _ _ _ Hx). constructor. }
  exists annotations. split; [exact Hx|]. split.
  - intros Hc.
    destruct (enrichment_loop_ok http_get json_dumps Hsearch annotations 0 [] Hc Hp)
      as (out & Hout & Hall).
    exists out. split; [|done].
    unfold script, extract_peco_highlights_from_tables. by rewrite Hx, bind_Ok.
  - intros Hc.
    destruct (enrichment_loop_incomplete http_get json_dumps Hsearch annotations
                0 [] Hc Hp) as (a & missing & Hin & Hm & Hnone & Hloop).
    exists a, missing. split; [done|]. split; [done|]. split; [done|].
    unfold script, extract_peco_highlights_from_tables. by rewrite Hx, bind_Ok.
Qed.

Lemma script_on_complete_annotations_witness :
  rows_have_cells (tables Scenario.complete_doc) /\
  searches_succeed Scenario.healthy Scenario.dumps /\
  exists annotations parsed_output,
    extract_peco_highlights_from_tables Scenario.complete_doc = Ok annotations /\
    forallb complete annotations = true /\
    script Scenario.healthy Scenario.dumps Scenario.complete_doc = Ok parsed_output /\
    Forall2 enriched_from annotations parsed_output.
Proof.
  assert (Hcells : rows_have_cells (tables Scenario.complete_doc)).
  { repeat constructor; discriminate. }
  assert (Hsearch : searches_succeed Scenario.healthy Scenario.dumps).
  { intros n text. eexists _, _. reflexivity. }
  split; [exact Hcells|]. split; [exact Hsearch|].
  destruct (script_on_complete_annotations Scenario.healthy Scenario.dumps
              Scenario.complete_doc Hcells Hsearch)
    as (annotations & Hx & Hpos & _).
  assert (Hc : forallb complete annotations = true).
  { vm_compute in Hx. injection Hx as <-. vm_compute. reflexivity. }
  destruct (Hpos Hc) as (parsed_output & Hscript & Hall).
  exists annotations, parsed_output. done.
Defined.


(** * Further properties *)

(** ** The run scan of a PECO cell *)

Lemma fold_paragraphs_runs (ps : list Paragraph) (acc : dict (list pystr) * pystr) :
  fold_left peco_paragraph ps acc
  = fold_left peco_run (List.concat (List.map runs ps)) acc.
Proof.
  revert acc. induction ps as [|para ps IH]; intros acc; [done|].
  cbn [fold_left List.map List.concat]. rewrite fold_left_app. apply IH.
Qed.

Lemma peco_run_get (category : pystr) (m : dict (list pystr)) (statement : pystr)
    (run : Run) :
  dict_get category (fst (peco_run (m, statement) run))
  = if bool_decide (run_category run = Some category)
    then Some (default [] (dict_get category m) ++ [strip (run_text run)])
    else dict_get category m.
Proof.
  unfold peco_run, run_category. cbn [fst].
  destruct (color_truthy _ && str_truthy _).
  - destruct (dict_get _ annotation_map) as [filed|].
    + case_bool_decide as Hc.
      * injection Hc as ->. rewrite dict_get_set_eq. f_equal. f_equal.
        unfold dict_mem. destruct (dict_get category m) eqn:E.
        -- by rewrite E.
        -- by rewrite dict_get_set_eq.
      * assert (filed <> category) by congruence.
        rewrite dict_get_set_ne by done.
        destruct (dict_mem filed m); [done|]. by rewrite dict_get_set_ne.
    + by rewrite bool_decide_eq_false_2.
  - by rewrite bool_decide_eq_false_2.
Qed.

Lemma fold_peco_run_get (category : pystr) (rs : list Run)
    (m : dict (list pystr)) (statement : pystr) :
  dict_get category m <> Some [] ->
  dict_get category (fst (fold_left peco_run rs (m, statement)))
  = match default [] (dict_get category m) ++ phrases_of category rs with
    | [] => None
    | phrase :: others => Some (phrase :: others)
    end.
Proof.
  revert m statement. induction rs as [|run rs IH]; intros m statement Hm.
  - cbn. rewrite app_nil_r. destruct (dict_get category m) as [[|p l]|]; done.
  - cbn [fold_left].
    pose proof (peco_run_get category m statement run) as Hstep.
    destruct (peco_run (m, statement) run) as [m' statement'] eqn:Erun.
    cbn [fst] in Hstep. rewrite IH.
    + rewrite Hstep. unfold phrases_of. cbn [List.filter].
      case_bool_decide; cbn [List.map from_option id]; [|done].
      by rewrite <- app_assoc.
    + rewrite Hstep. case_bool_decide; [|done].
      intros [= Habs]. by destruct (default [] (dict_get category m)).
Qed.

Lemma fold_peco_run_statement (rs : list Run) (m : dict (list pystr))
    (statement : pystr) :
  snd (fold_left peco_run rs (m, statement)) = statement ++ spaced_texts rs.
Proof.
  revert m statement. induction rs as [|run rs IH]; intros m statement.
  - cbn. by rewrite app_nil_r.
  - cbn [fold_left].
    destruct (peco_run (m, statement) run) as [m' statement'] eqn:Erun.
    rewrite IH. unfold peco_run in Erun. injection Erun as _ <-.
    unfold spaced_texts. cbn [List.map List.concat].
    change (lit "") with (@nil char). cbn [app]. by rewrite <- !app_assoc.
Qed.

(** X1: under every category the PECO cell scan files exactly the trimmed
    texts of the runs of that category, once each and in document order; a
    category without such a run has no entry at all. *)
Theorem peco_cell_scan_phrases (peco_cell : Cell) (category : pystr) :
  dict_get category (fst (peco_cell_scan peco_cell))
  = match phrases_of category (cell_runs peco_cell) with
    | [] => None
    | phrase :: others => Some (phrase :: others)
    end.
Proof.
  unfold peco_cell_scan, cell_runs. rewrite fold_paragraphs_runs.
  by rewrite fold_peco_run_get.
Qed.

(** X2: the raw statement of a PECO cell is the trimmed text of every run
    of the cell, highlighted or not, empty or not, each followed by one
    space, in document order. *)
Theorem peco_cell_scan_statement (peco_cell : Cell) :
  snd (peco_cell_scan peco_cell) = spaced_texts (cell_runs peco_cell).
Proof.
  unfold peco_cell_scan, cell_runs. rewrite fold_paragraphs_runs.
  by rewrite fold_peco_run_statement.
Qed.

(** ** Rows without cells *)








(** ** Tables are scanned independently *)

(** X4: the records of a document are the records of its first tables
    followed by the records of its remaining tables: no table influences
    the record of another, whatever the split, failures included. *)
Theorem extract_app (ts1 ts2 : list Table) :
  extract_peco_highlights_from_tables {| tables := ts1 ++ ts2 |}
  = recs1 ← extract_peco_highlights_from_tables {| tables := ts1 |};
    recs2 ← extract_peco_highlights_from_tables {| tables := ts2 |};
    Ok (recs1 ++ recs2).
Proof.
  unfold extract_peco_highlights_from_tables. cbn [tables].
  rewrite scan_tables_app.
  destruct (scan_tables [] ts1) as [recs1|e]; [|done].
  rewrite !bind_Ok. apply scan_tables_acc.
Qed.

(** ** The fields of an annotation *)

Lemma dict_set_keys {V} (P : pystr -> Prop) (k : pystr) (v : V) (d : dict V) :
  P k -> Forall P (dict_keys d) -> Forall P (dict_keys (dict_set k v d)).
Proof.
  intros Hk. unfold dict_keys.
  induction d as [|[k0 v0] d IH]; cbn; intros Hd.
  - by constructor.
  - apply Forall_cons in Hd as [H0 Hd].
    destruct (str_eqb k k0); cbn; constructor; auto.
Qed.

Lemma route_keys (P : pystr -> Prop) (label field key : pystr) (value : pyvalue)
    (d : pydict) :
  P field -> Forall P (dict_keys d) ->
  Forall P (dict_keys (route label field key value d)).
Proof.
  intros Hf Hd. unfold route. destruct (contains label key); [|done].
  by apply dict_set_keys.
Qed.

Lemma scan_row_fields (d d' : pydict) (row : Row) :
  scan_row d row = Ok d' ->
  Forall (fun k => In k annotation_fields) (dict_keys d) ->
  Forall (fun k => In k annotation_fields) (dict_keys d').
Proof.
  unfold scan_row. destruct (cells row) as [|first others]; [done|].
  destruct (peco_cell_scan _) as [m statement].
  intros [= <-] Hd.
  assert (Hroutes : forall field, In field annotation_fields ->
            forall label key value d0,
              Forall (fun k => In k annotation_fields) (dict_keys d0) ->
              Forall (fun k => In k annotation_fields)
                (dict_keys (route label field key value d0))).
  { intros field Hin label key value d0. by apply route_keys. }
  destruct (contains (lit "PECO statement") _).
  - apply dict_set_keys; [repeat (first [left; reflexivity | right])|].
    apply dict_set_keys; [repeat (first [left; reflexivity | right])|].
    repeat (apply Hroutes; [repeat (first [left; reflexivity | right])|]).
    exact Hd.
  - repeat (apply Hroutes; [repeat (first [left; reflexivity | right])|]).
    exact Hd.
Qed.

Lemma scan_rows_fields (rs : list Row) (d d' : pydict) :
  scan_rows d rs = Ok d' ->
  Forall (fun k => In k annotation_fields) (dict_keys d) ->
  Forall (fun k => In k annotation_fields) (dict_keys d').
Proof.
  revert d. induction rs as [|row rs IH]; intros d; cbn [scan_rows].
  - by intros [= <-].
  - destruct (scan_row d row) as [d1|e] eqn:E; [|done].
    rewrite bind_Ok. intros Hrest Hd. apply (IH d1 Hrest).
    by apply (scan_row_fields d d1 row).
Qed.

Lemma scan_tables_fields (ts : list Table) (acc recs : list pydict) :
  scan_tables acc ts = Ok recs ->
  Forall (fun a => a <> [] /\
                   Forall (fun k => In k annotation_fields) (dict_keys a)) acc ->
  Forall (fun a => a <> [] /\
                   Forall (fun k => In k annotation_fields) (dict_keys a)) recs.
Proof.
  revert acc. induction ts as [|table ts IH]; intros acc; cbn [scan_tables].
  - by intros [= <-].
  - destruct (scan_rows [] (rows table)) as [d|e] eqn:E; [|done].
    rewrite bind_Ok. intros Hrest Hacc. apply (IH _ Hrest).
    destruct d as [|kv d]; [done|].
    apply Forall_app. split; [done|]. constructor; [|done].
    split; [done|]. apply (scan_rows_fields _ _ _ E). constructor.
Qed.

(** X5: every record the extraction produces is a non-empty dictionary
    whose keys are among the eight field names of the row scan; no other
    key is ever written. *)
Theorem extract_record_fields (doc : Document) :
  rows_have_cells (tables doc) ->
  exists recs,
    extract_peco_highlights_from_tables doc = Ok recs /\
    Forall (fun a => a <> [] /\
                     Forall (fun k => In k annotation_fields) (dict_keys a)) recs.
Proof.
  intros Hcells.
  destruct (scan_tables_count (tables doc) [] Hcells) as (recs & Hx & _).
  exists recs. split; [exact Hx|].
  apply (scan_tables_fields _ _ _ Hx). constructor.
Qed.

Lemma extract_record_fields_witness :
  exists recs,
    extract_peco_highlights_from_tables Scenario.complete_doc = Ok recs /\
    Forall (fun a => a <> [] /\
                     Forall (fun k => In k annotation_fields) (dict_keys a)) recs.
Proof.
  apply (extract_record_fields Scenario.complete_doc).
  repeat constructor; discriminate.
Defined.

(** ** The metadata rows *)

Lemma find_snoc {A} (f : A -> bool) (l : list A) (x : A) :
  List.find f (l ++ [x])
  = match List.find f l with
    | Some y => Some y
    | None => if f x then Some x else None
    end.
Proof.
  induction l as [|y l IH]; cbn; [done|]. destruct (f y); [done|]. apply IH.
Qed.

Lemma scan_rows_last_wins (field : pystr) (hit : Row -> bool)
    (val : Row -> option pyvalue) :
  (forall d row, cells row <> [] ->
     exists d', scan_row d row = Ok d' /\
                dict_get field d' = if hit row then val row else dict_get field d) ->
  forall rs d,
    Forall (fun row => cells row <> []) rs ->
    exists d', scan_rows d rs = Ok d' /\
               dict_get field d'
               = match last_row hit rs with
                 | Some row => val row
                 | None => dict_get field d
                 end.
Proof.
  intros Hstep rs d Hall. revert d.
  induction Hall as [|row rs Hrow _ IH]; intros d.
  - by exists d.
  - destruct (Hstep d row Hrow) as (d1 & H1 & E1).
    destruct (IH d1) as (d2 & H2 & E2).
    exists d2. split.
    + cbn [scan_rows]. by rewrite H1, bind_Ok.
    + rewrite E2, E1. unfold last_row. cbn [rev]. rewrite find_snoc.
      destruct (List.find hit (rev rs)); [done|]. by destruct (hit row).
Qed.

Lemma scan_row_metadata (label field : pystr) (d : pydict) (row : Row) :
  In (label, field) metadata_routes ->
  cells row <> [] ->
  exists d', scan_row d row = Ok d' /\
             dict_get field d'
             = if row_has_label label row then row_value row
               else dict_get field d.
Proof.
  intros Hin Hcells. unfold scan_row, row_has_label, row_value.
  destruct (cells row) as [|first others]; [done|].
  destruct (peco_cell_scan _) as [m statement].
  eexists. split; [reflexivity|].
  unfold metadata_routes in Hin.
  destruct Hin as [[= <- <-]|[[= <- <-]|[[= <- <-]|[[= <- <-]|[[= <- <-]|
                  [[= <- <-]|[]]]]]]];
    (destruct (contains (lit "PECO statement") _);
     [rewrite !dict_get_set_ne by done|]);
    repeat (rewrite route_get_ne by done);
    (unfold route at 1;
     match goal with |- context [if contains ?l ?k then _ else _] =>
       destruct (contains l k) end;
     [apply dict_get_set_eq | by rewrite ?route_get_ne]).
Qed.

(** X6: each of the six metadata fields of a table's record holds the
    trimmed last-cell text of the last row, in row order, whose first cell
    contains the field's label; the field is absent when the table has no
    such row. *)
Theorem scan_rows_metadata_last_wins (table : Table) (label field : pystr) :
  In (label, field) metadata_routes ->
  Forall (fun row => cells row <> []) (rows table) ->
  exists annotation,
    scan_rows [] (rows table) = Ok annotation /\
    dict_get field annotation
    = match last_row (row_has_label label) (rows table) with
      | Some row => row_value row
      | None => None
      end.
Proof.
  intros Hin Hcells.
  apply (scan_rows_last_wins field (row_has_label label) row_value); [|done].
  intros d row Hrow. by apply scan_row_metadata.
Qed.

Lemma scan_rows_metadata_last_wins_witness :
  exists annotation,
    scan_rows [] (rows Scenario.two_peco_table) = Ok annotation /\
    dict_get (lit "doc_year") annotation = Some (PStr (lit "2020")) /\
    dict_get (lit "doc_title") annotation = None.
Proof.
  destruct (scan_rows_metadata_last_wins Scenario.two_peco_table
              (lit "Year of publication") (lit "doc_year"))
    as (annotation & Hscan & Hyear).
  { do 2 right. left. reflexivity. }
  { repeat constructor; discriminate. }
  exists annotation. split; [exact Hscan|]. split; [exact Hyear|].
  vm_compute in Hscan. injection Hscan as <-. reflexivity.
Defined.

(** ** Substrings *)

Lemma startswith_app (p s : pystr) : startswith p (p ++ s) = true.
Proof. induction p as [|c p IH]; cbn; [done|]. by rewrite N.eqb_refl. Qed.

Lemma startswith_inv (p s : pystr) :
  startswith p s = true -> exists post, s = p ++ post.
Proof.
  revert s. induction p as [|c p IH]; intros s; cbn.
  - intros _. by exists s.
  - destruct s as [|c' s]; [done|].
    intros [Hc Hp]%andb_true_iff. apply N.eqb_eq in Hc as <-.
    destruct (IH s Hp) as [post ->]. by exists post.
Qed.

Lemma contains_app (needle pre post : pystr) :
  contains needle (pre ++ needle ++ post) = true.
Proof.
  induction pre as [|c pre IH].
  - cbn [app]. destruct (needle ++ post) eqn:E; cbn [contains];
      rewrite <- E, startswith_app; done.
  - cbn [app contains]. rewrite IH. by rewrite orb_true_r.
Qed.

Lemma contains_inv (needle hay : pystr) :
  contains needle hay = true -> exists pre post, hay = pre ++ needle ++ post.
Proof.
  induction hay as [|c hay IH]; cbn [contains].
  - rewrite orb_false_r. intros [post ->]%startswith_inv. by exists [], post.
  - intros [Hs|Hc]%orb_true_iff.
    + apply startswith_inv in Hs as [post ->]. by exists [], post.
    + destruct (IH Hc) as (pre & post & ->). by exists (c :: pre), post.
Qed.

Lemma contains_trans (a b c : pystr) :
  contains a b = true -> contains b c = true -> contains a c = true.
Proof.
  intros (pre1 & post1 & ->)%contains_inv (pre2 & post2 & ->)%contains_inv.
  replace (pre2 ++ (pre1 ++ a ++ post1) ++ post2)
    with ((pre2 ++ pre1) ++ a ++ (post1 ++ post2)).
  - apply contains_app.
  - by rewrite <- !app_assoc.
Qed.

(** X7: a row recognised as the "Section PECO statement is in" row is also
    taken for a PECO-statement row, its label containing "PECO statement":
    the scan stores the row's last cell as the section and, from the very
    same cell, overwrites the phrases and the statement of the record. *)
Theorem section_row_is_peco_row (d : pydict) (row : Row) :
  row_has_label (lit "Section PECO statement is in") row = true ->
  is_peco_row row = true /\
  exists d' m statement,
    scan_row d row = Ok d' /\
    row_peco_scan row = Some (m, statement) /\
    dict_get (lit "doc_peco_section") d' = row_value row /\
    dict_get (lit "peco_elements") d' = Some (elements_value m) /\
    dict_get (lit "peco_statement") d' = Some (PStr statement).
Proof.
  intros Hsection.
  assert (Hpeco : is_peco_row row = true).
  { unfold is_peco_row, row_has_label in *.
    destruct (cells row) as [|first others]; [done|].
    apply (contains_trans _ (lit "Section PECO statement is in")); [|done].
    vm_compute. reflexivity. }
  split; [exact Hpeco|].
  assert (Hcells : cells row <> []).
  { unfold row_has_label in Hsection. by destruct (cells row). }
  destruct (row_peco_scan row) as [[m statement]|] eqn:Escan.
  2: { unfold row_peco_scan in Escan. by destruct (cells row). }
  destruct (scan_row_peco d row m statement Hpeco Escan) as (d' & Hd' & He & Hs).
  destruct (scan_row_metadata (lit "Section PECO statement is in")
              (lit "doc_peco_section") d row) as (d'' & Hd'' & Hsec);
    [do 4 right; left; reflexivity|done|].
  rewrite Hsection in Hsec. rewrite Hd' in Hd''. injection Hd'' as <-.
  by exists d', m, statement.
Qed.

Lemma section_row_is_peco_row_witness :
  is_peco_row
    (Scenario.text_row (lit "Section PECO statement is in") (lit "Abstract"))
  = true /\
  exists d' m statement,
    scan_row [ (lit "peco_statement", PStr (lit "elderly adults were studied ")) ]
      (Scenario.text_row (lit "Section PECO statement is in") (lit "Abstract"))
    = Ok d' /\
    row_peco_scan
      (Scenario.text_row (lit "Section PECO statement is in") (lit "Abstract"))
    = Some (m, statement) /\
    dict_get (lit "doc_peco_section") d'
    = row_value
        (Scenario.text_row (lit "Section PECO statement is in") (lit "Abstract")) /\
    dict_get (lit "peco_elements") d' = Some (elements_value m) /\
    dict_get (lit "peco_statement") d' = Some (PStr statement).
Proof.
  apply (section_row_is_peco_row
           [ (lit "peco_statement", PStr (lit "elderly adults were studied ")) ]
           (Scenario.text_row (lit "Section PECO statement is in") (lit "Abstract"))).
  vm_compute. reflexivity.
Defined.

(** ** Runs without a highlight index *)

Lemma annotation_map_key_length (color_key category : pystr) :
  dict_get color_key annotation_map = Some category ->
  In (length color_key) [8; 16; 13; 10]%nat.
Proof.
  unfold annotation_map. cbn [dict_get].
  repeat match goal with
         | |- context [str_eqb color_key ?k] =>
             destruct (str_eqb color_key k) eqn:E;
             [apply bool_decide_eq_true in E as ->; intros _;
              repeat (first [left; reflexivity | right])
             |clear E]
         end.
  done.
Qed.

(** X8: a run without a truthy highlight index is never filed under a
    category, whatever its font colour: the six hex digits of an RGB
    colour are no key of [annotation_map].  The run only adds its text to
    the statement. *)
Theorem font_color_never_files (run : Run) :
  no_truthy_highlight run ->
  run_category run = None /\
  forall color_text_map statement,
    fst (peco_run (color_text_map, statement) run) = color_text_map.
Proof.
  intros Hno.
  assert (Hcat : run_category run = None).
  { unfold run_category.
    destruct (color_truthy _ && str_truthy _) eqn:Hcond; [|done].
    apply andb_true_iff in Hcond as [Htruthy _].
    destruct (dict_get _ annotation_map) as [category|] eqn:E; [|done].
    apply annotation_map_key_length in E. exfalso.
    unfold no_truthy_highlight, get_highlight_color in *.
    destruct (highlight_color (font run)) as [i|].
    - rewrite Hno in *.
      destruct (color (font run)) as [[[c|]]|]; cbn in E, Htruthy;
        (discriminate || intuition discriminate).
    - destruct (color (font run)) as [[[c|]]|]; cbn in E, Htruthy;
        (discriminate || intuition discriminate). }
  split; [exact Hcat|]. intros m statement.
  unfold run_category in Hcat. unfold peco_run. cbn [fst].
  destruct (color_truthy _ && str_truthy _); [|done]. by rewrite Hcat.
Qed.

Lemma font_color_never_files_witness :
  run_category Scenario.red_run = None /\
  forall color_text_map statement,
    fst (peco_run (color_text_map, statement) Scenario.red_run) = color_text_map.
Proof. apply (font_color_never_files Scenario.red_run). exact I. Defined.

(** ** The quoted IRI *)

Lemma utf8_bytes (c : char) (bs : list N) :
  utf8 c = Ok bs -> Forall (fun b => (b < 256)%N) bs.
Proof.
  unfold utf8.
  pose proof (N.mod_lt c 64 ltac:(lia)) as M1.
  pose proof (N.mod_lt (c / 64) 64 ltac:(lia)) as M2.
  pose proof (N.mod_lt (c / 4096) 64 ltac:(lia)) as M3.
  destruct (N.ltb_spec c 128);
    [intros [= <-]; repeat (apply List.Forall_cons; [lia|]); constructor|].
  destruct (N.ltb_spec c 2048).
  { assert (c / 64 < 32)%N by (apply N.Div0.div_lt_upper_bound; lia).
    intros [= <-]; repeat (apply List.Forall_cons; [lia|]); constructor. }
  destruct (N.ltb_spec c 65536).
  { assert (c / 4096 < 16)%N by (apply N.Div0.div_lt_upper_bound; lia).
    destruct (_ && _); [done|].
    intros [= <-]; repeat (apply List.Forall_cons; [lia|]); constructor. }
  destruct (N.ltb_spec c 1114112); [|done].
  assert (c / 262144 < 5)%N by (apply N.Div0.div_lt_upper_bound; lia).
  intros [= <-]; repeat (apply List.Forall_cons; [lia|]); constructor.
Qed.

Lemma utf8_scalar (c : char) : scalar_value c -> exists bs, utf8 c = Ok bs.
Proof.
  unfold scalar_value, utf8. intros Hc.
  destruct (N.ltb_spec c 128); [by eexists|].
  destruct (N.ltb_spec c 2048); [by eexists|].
  destruct (N.ltb_spec c 65536).
  { destruct (N.leb_spec 55296 c), (N.leb_spec c 57343); cbn;
      (by eexists) || lia. }
  destruct (N.ltb_spec c 1114112); [by eexists|lia].
Qed.

Lemma utf8_not_scalar (c : char) :
  ~ scalar_value c -> utf8 c = Raise UnicodeEncodeError.
Proof.
  unfold scalar_value, utf8. intros Hc.
  destruct (N.ltb_spec c 128); [lia|].
  destruct (N.ltb_spec c 2048); [lia|].
  destruct (N.ltb_spec c 65536).
  { destruct (N.leb_spec 55296 c), (N.leb_spec c 57343); cbn; done || lia. }
  destruct (N.ltb_spec c 1114112); [lia|done].
Qed.

Lemma hexdigit_safe (n : N) : (n < 16)%N -> always_safe (hexdigit n) = true.
Proof.
  intros Hn. unfold hexdigit, always_safe.
  destruct (N.ltb_spec n 10).
  - replace ((48 <=? 48 + n)%N && (48 + n <=? 57)%N) with true; [|symmetry].
    + by rewrite !orb_true_r.
    + apply andb_true_iff. split; apply N.leb_le; lia.
  - replace ((65 <=? 55 + n)%N && (55 + n <=? 90)%N) with true; [done|symmetry].
    apply andb_true_iff. split; apply N.leb_le; lia.
Qed.

Lemma quote_byte_alphabet (safe : pystr) (b : N) :
  (b < 256)%N ->
  Forall (fun c => always_safe c = true \/ In c safe \/ c = 37%N)
    (quote_byte safe b).
Proof.
  intros Hb. unfold quote_byte.
  destruct (always_safe b) eqn:Hsafe; cbn [orb].
  - apply List.Forall_cons; [by left|constructor].
  - destruct (existsb (N.eqb b) safe) eqn:Hin.
    + apply List.Forall_cons; [|constructor]. right. left.
      apply existsb_exists in Hin as (c & Hc & ->%N.eqb_eq). exact Hc.
    + unfold hex2.
      apply List.Forall_cons; [by right; right|].
      apply List.Forall_cons.
      { left. apply hexdigit_safe. apply N.Div0.div_lt_upper_bound. lia. }
      apply List.Forall_cons; [|constructor].
      left. apply hexdigit_safe. apply N.mod_lt. lia.
Qed.

Lemma mapM_utf8_bytes (s : pystr) (bs : list (list N)) :
  mapM utf8 s = Ok bs -> Forall (fun b => (b < 256)%N) (List.concat bs).
Proof.
  revert bs. induction s as [|c s IH]; intros bs; cbn [mapM].
  - intros [= <-]. constructor.
  - destruct (utf8 c) as [b|e] eqn:E; [|done]. rewrite bind_Ok.
    destruct (mapM utf8 s) as [bs'|e]; [|done]. rewrite bind_Ok.
    intros [= <-]. cbn [List.concat]. apply Forall_app. split.
    + by apply (utf8_bytes c).
    + by apply IH.
Qed.

Lemma quote_alphabet (s safe out : pystr) :
  quote (PStr s) safe = Ok out ->
  Forall (fun c => always_safe c = true \/ In c safe \/ c = 37%N) out.
Proof.
  unfold quote. destruct (mapM utf8 s) as [bs|e] eqn:E; [|done].
  rewrite bind_Ok. intros [= <-].
  apply mapM_utf8_bytes in E.
  induction E as [|b l Hb _ IH]; cbn; [constructor|].
  apply Forall_app. split; [by apply quote_byte_alphabet|exact IH].
Qed.

Lemma utf8_ascii (c : char) : (c < 128)%N -> utf8 c = Ok [c].
Proof. intros Hc. unfold utf8. by apply N.ltb_lt in Hc as ->. Qed.

Lemma quote_ascii (s safe : pystr) :
  Forall (fun c => (c < 128)%N) s ->
  quote (PStr s) safe = Ok (List.concat (List.map (quote_byte safe) s)).
Proof.
  intros Hs. unfold quote.
  assert (Hm : mapM utf8 s = Ok (List.map (fun c => [c]) s)).
  { induction Hs as [|c s Hc _ IH]; [done|].
    cbn [mapM List.map]. by rewrite (utf8_ascii c Hc), bind_Ok, IH. }
  rewrite Hm, bind_Ok. do 3 f_equal.
  clear. induction s as [|c s IH]; cbn; [done|]. by rewrite IH.
Qed.

Lemma always_safe_ascii (c : char) : always_safe c = true -> (c < 128)%N.
Proof.
  unfold always_safe. rewrite !orb_true_iff, !andb_true_iff.
  rewrite !N.leb_le, !N.eqb_eq. lia.
Qed.

(** X9: when the first quoting of an IRI succeeds, the second one does
    too; it leaves every character but [%] as it is and rewrites [%] into
    [%25], so that the IRI sent in the address holds only letters, digits,
    [_.-~] and [%], and no [/]. *)
Theorem quote_twice (s inner : pystr) :
  quote (PStr s) (lit "") = Ok inner ->
  quote (PStr inner) (lit "/") = Ok (requote inner) /\
  Forall (fun c => always_safe c = true \/ c = 37%N) (requote inner).
Proof.
  intros Hfirst. apply quote_alphabet in Hfirst.
  assert (Hinner : Forall (fun c => always_safe c = true \/ c = 37%N) inner).
  { eapply Forall_impl; [exact Hfirst|]. cbn. intros c [?|[[]|?]]; auto. }
  clear Hfirst. split.
  - rewrite quote_ascii.
    + f_equal. unfold requote. f_equal.
      induction Hinner as [|c l Hc _ IH]; [done|]. cbn [List.map]. f_equal; [|exact IH].
      destruct Hc as [Hc | ->]; [|vm_compute; reflexivity].
      destruct (N.eqb_spec c 37) as [->|]; [vm_compute in Hc; discriminate|].
      unfold quote_byte. by rewrite Hc.
    + eapply Forall_impl; [exact Hinner|]. cbn.
      intros c [Hc| ->]; [by apply always_safe_ascii|lia].
  - unfold requote. induction Hinner as [|c l Hc _ IH]; cbn; [constructor|].
    apply Forall_app. split; [|exact IH].
    destruct (N.eqb_spec c 37) as [->|Hne].
    + apply List.Forall_cons; [by right|].
      apply List.Forall_cons; [by left|].
      apply List.Forall_cons; [by left|constructor].
    + apply List.Forall_cons; [|constructor]. destruct Hc; [by left|done].
Qed.

Lemma quote_twice_witness :
  (quote (PStr (lit "http%3A%2F%2Fpurl.obolibrary.org%2Fobo%2FDUO_0000017")) (lit "/")
   = Ok (requote (lit "http%3A%2F%2Fpurl.obolibrary.org%2Fobo%2FDUO_0000017")) /\
   Forall (fun c => always_safe c = true \/ c = 37%N)
     (requote (lit "http%3A%2F%2Fpurl.obolibrary.org%2Fobo%2FDUO_0000017"))) /\
  requote (lit "http%3A%2F%2Fpurl.obolibrary.org%2Fobo%2FDUO_0000017")
  = lit "http%253A%252F%252Fpurl.obolibrary.org%252Fobo%252FDUO_0000017".
Proof.
  split; [|vm_compute; reflexivity].
  apply (quote_twice (lit "http://purl.obolibrary.org/obo/DUO_0000017")).
  vm_compute. reflexivity.
Defined.

(** X10: quoting a string succeeds exactly when every code point of it
    can be encoded in UTF-8; a string with a surrogate makes [quote], and
    with it [get_term_ancestors], raise [UnicodeEncodeError] before any
    request is made, whatever the service. *)
Theorem quote_fails_on_surrogates (s safe : pystr) :
  (Forall scalar_value s -> exists out, quote (PStr s) safe = Ok out) /\
  (Exists (fun c => ~ scalar_value c) s ->
   quote (PStr s) safe = Raise UnicodeEncodeError /\
   forall http_get n ontology,
     get_term_ancestors http_get n ontology (PStr s) = Raise UnicodeEncodeError).
Proof.
  split.
  - intros Hs. unfold quote.
    assert (Hm : exists bs, mapM utf8 s = Ok bs).
    { induction Hs as [|c s Hc _ [bs IH]]; [by eexists|].
      destruct (utf8_scalar c Hc) as [b Hb].
      exists (b :: bs). cbn [mapM]. by rewrite Hb, bind_Ok, IH. }
    destruct Hm as [bs ->]. by eexists.
  - intros Hex.
    assert (Hm : mapM utf8 s = Raise UnicodeEncodeError).
    { induction Hex as [c s Hc|c s _ IH]; cbn [mapM].
      - by rewrite (utf8_not_scalar c Hc).
      - destruct (utf8 c) as [b|e] eqn:E.
        + by rewrite bind_Ok, IH.
        + assert (e = UnicodeEncodeError) as ->; [|done].
          unfold utf8 in E. repeat case_match; congruence. }
    assert (Hq : forall safe', quote (PStr s) safe' = Raise UnicodeEncodeError).
    { intros safe'. unfold quote. by rewrite Hm. }
    split; [apply Hq|]. intros http_get n ontology.
    unfold get_term_ancestors. by rewrite Hq.
Qed.

Lemma quote_fails_on_surrogates_witness :
  (exists out, quote (PStr [104; 233; 8364]%N) (lit "") = Ok out) /\
  quote (PStr [104; 55357]%N) (lit "") = Raise UnicodeEncodeError.
Proof.
  split.
  - apply (proj1 (quote_fails_on_surrogates [104; 233; 8364]%N (lit ""))).
    repeat (apply List.Forall_cons; [unfold scalar_value; lia|]). constructor.
  - apply (proj2 (quote_fails_on_surrogates [104; 55357]%N (lit ""))).
    right. left. unfold scalar_value. lia.
Defined.

(** ** A list already in ascending order *)

Lemma sort_by_key_sorted_id {A} (l : list (Z * A)) :
  StronglySorted key_le l -> sort_by_key l = l.
Proof.
  induction 1 as [|x l Hl IH Hx]; [done|].
  cbn [sort_by_key]. rewrite IH.
  destruct l as [|y l]; [done|]. cbn [insert_by_key].
  apply Forall_cons in Hx as [Hxy _]. unfold key_le in Hxy.
  by apply Z.leb_le in Hxy as ->.
Qed.

Lemma decorate_sorted {A} (key : A -> Z) (l : list A) :
  StronglySorted (fun x y => key x <= key y) l ->
  StronglySorted key_le (decorate key l).
Proof.
  induction 1 as [|x l Hl IH Hx]; cbn; constructor; [done|].
  unfold decorate. rewrite Forall_map. exact Hx.
Qed.

(** X11: when every fetch hands back a list, the ranker returns the
    concepts in the order it was given them exactly when that order is
    already ascending in [distance_from_root]. *)
Theorem rank_keeps_sorted_input
    (http_get : nat -> url -> pydict -> http_outcome) (n : nat) (σ : store)
    (ontology_matches : list loc) :
  fetches_succeed http_get n σ ontology_matches ->
  exists σ' ranked,
    rank_ontology_matches_by_distance http_get n σ ontology_matches
      = Ok (σ', ranked) /\
    (ranked = ontology_matches <->
     StronglySorted (by_distance σ') ontology_matches).
Proof.
  intros Hfetch.
  destruct (rank_spec http_get ontology_matches n σ Hfetch) as (σ' & Hrank & _).
  eexists σ', _. split; [exact Hrank|]. split.
  - intros Heq.
    pose proof (sorted_decorate_sorted (distance_from_root σ') ontology_matches)
      as Hsorted.
    by rewrite Heq in Hsorted.
  - intros Hsorted.
    rewrite sort_by_key_sorted_id by by apply decorate_sorted.
    apply decorate_snd.
Qed.

Lemma rank_keeps_sorted_input_witness :
  exists σ' ranked,
    rank_ontology_matches_by_distance Scenario.healthy 0 Scenario.records
      [0%nat; 1%nat] = Ok (σ', ranked) /\
    (ranked = [0%nat; 1%nat] <->
     StronglySorted (by_distance σ') [0%nat; 1%nat]).
Proof.
  apply (rank_keeps_sorted_input Scenario.healthy 0 Scenario.records
           [0%nat; 1%nat]).
  split; [|split; [|exact I]].
  - eexists _, _, _. split; [reflexivity|]. split; [reflexivity|].
    vm_compute. reflexivity.
  - eexists _, _, _. split; [reflexivity|]. split; [reflexivity|].
    vm_compute. reflexivity.
Defined.

(** ** The entries of an output record *)

Lemma four_lists_entries (annotation_d : pydict) (category : pystr) :
  four_lists annotation_d -> In category categories ->
  exists elements,
    dict_get (lit "peco_elements") annotation_d = Some (PDict elements) /\
    dict_get category elements = Some (PList (entries_under category annotation_d)).
Proof.
  intros (elements & Hget & Hkeys & Hlists) Hcat.
  exists elements. split; [exact Hget|].
  unfold entries_under. rewrite Hget.
  assert (Hmem : dict_mem category elements = true).
  { apply dict_get_keys. by rewrite Hkeys. }
  unfold dict_mem in Hmem.
  destruct (dict_get category elements) as [current|] eqn:Ecur; [|done].
  pose proof (dict_get_In _ _ _ Ecur) as Hin.
  rewrite List.Forall_forall in Hlists.
  destruct (Hlists _ Hin) as [entries Hcur]. cbn in Hcur. by subst current.
Qed.

Lemma append_element_entries (annotation_d : pydict) (peco_element : pystr)
    (entry : pyvalue) :
  four_lists annotation_d ->
  In peco_element categories ->
  exists d',
    append_element annotation_d peco_element entry = Ok d' /\
    four_lists d' /\
    dict_keys d' = dict_keys annotation_d /\
    forall category,
      entries_under category d'
      = entries_under category annotation_d
        ++ (if bool_decide (category = peco_element) then [entry] else []).
Proof.
  intros Hd Hcat.
  destruct (append_element_ok annotation_d peco_element entry Hd Hcat)
    as (d' & Happ & Hd' & _).
  destruct (four_lists_entries annotation_d peco_element Hd Hcat)
    as (elements & Hget & Hcur).
  exists d'. split; [exact Happ|]. split; [exact Hd'|].
  unfold append_element in Happ.
  rewrite (getitem_Some _ _ _ Hget), bind_Ok in Happ.
  rewrite (getitem_Some _ _ _ Hcur), bind_Ok in Happ.
  injection Happ as <-. split.
  - apply dict_keys_set_present. unfold dict_mem. by rewrite Hget.
  - intros category. unfold entries_under at 1.
    rewrite dict_get_set_eq. case_bool_decide as Hc.
    + subst category. by rewrite dict_get_set_eq.
    + rewrite dict_get_set_ne by done. rewrite app_nil_r.
      unfold entries_under. by rewrite Hget.
Qed.

Section EntriesFacts.
Variable http_get : nat -> url -> pydict -> http_outcome.
Variable json_dumps : pyvalue -> pystr.
Hypothesis Hsearch : searches_succeed http_get json_dumps.

Lemma enrich_texts_entries (el_texts : list pyvalue) (n : nat)
    (annotation_d : pydict) (peco_element : pystr) :
  four_lists annotation_d ->
  In peco_element categories ->
  exists d' new,
    enrich_texts http_get json_dumps n annotation_d peco_element el_texts
      = Ok (d', (n + length el_texts)%nat) /\
    four_lists d' /\
    dict_keys d' = dict_keys annotation_d /\
    Forall2 (entry_for http_get json_dumps) el_texts new /\
    forall category,
      entries_under category d'
      = entries_under category annotation_d
        ++ (if bool_decide (category = peco_element) then new else []).
Proof.
  revert n annotation_d.
  induction el_texts as [|text rest IH]; intros n d Hd Hcat.
  - exists d, []. rewrite Nat.add_0_r. split; [done|]. split; [done|].
    split; [done|]. split; [constructor|].
    intros category. destruct (bool_decide _); by rewrite app_nil_r.
  - destruct (Hsearch n text) as (js & ms & Hr).
    set (entry := PDict [ (lit "text", text);
                          (lit "matches", PList (List.map PDict ms)) ]).
    destruct (append_element_entries d peco_element entry Hd Hcat)
      as (d1 & H1 & Hd1 & Hk1 & He1).
    destruct (IH (S n) d1 Hd1 Hcat) as (d2 & new & H2 & Hd2 & Hk2 & Hnew & He2).
    exists d2, (entry :: new). split; [|split; [done|split; [congruence|split]]].
    + cbn [enrich_texts length]. rewrite Hr, bind_Ok. fold entry.
      rewrite H1, bind_Ok, H2. by rewrite Nat.add_succ_r.
    + constructor; [|done]. by exists n, js, ms.
    + intros category. rewrite He2, He1. rewrite <- app_assoc.
      by destruct (bool_decide _).
Qed.

Lemma enrich_elements_entries (items : list (pystr * pyvalue)) (n : nat)
    (annotation_d : pydict) :
  Forall (fun kv => In (fst kv) categories /\ exists texts, snd kv = PList texts)
    items ->
  four_lists annotation_d ->
  exists d',
    enrich_elements http_get json_dumps n annotation_d items
      = Ok (d', (n + length (all_texts items))%nat) /\
    four_lists d' /\
    dict_keys d' = dict_keys annotation_d /\
    forall category,
      exists new,
        Forall2 (entry_for http_get json_dumps) (texts_under category items) new /\
        entries_under category d' = entries_under category annotation_d ++ new.
Proof.
  intros Hitems. revert n annotation_d.
  induction Hitems as [|[peco_element el_texts] items [Hcat [texts Hlist]] _ IH];
    intros n d Hd.
  - exists d. rewrite Nat.add_0_r. split; [done|]. split; [done|]. split; [done|].
    intros category. exists []. split; [constructor|by rewrite app_nil_r].
  - cbn in Hcat, Hlist. subst el_texts.
    destruct (enrich_texts_entries texts n d peco_element Hd Hcat)
      as (d1 & new1 & H1 & Hd1 & Hk1 & Hnew1 & He1).
    destruct (IH (n + length texts)%nat d1 Hd1) as (d2 & H2 & Hd2 & Hk2 & He2).
    exists d2. split; [|split; [done|split; [congruence|]]].
    + cbn [enrich_elements py_iter]. rewrite bind_Ok, H1, bind_Ok. rewrite H2.
      unfold all_texts. cbn [List.map List.concat snd].
      by rewrite length_app, Nat.add_assoc.
    + intros category. destruct (He2 category) as (new2 & Hnew2 & Heq2).
      unfold texts_under. cbn [List.map List.concat fst snd].
      fold (texts_under category items).
      rewrite Heq2, He1, <- app_assoc.
      destruct (decide (peco_element = category)) as [->|Hne].
      * rewrite !bool_decide_eq_true_2 by done.
        exists (new1 ++ new2). split; [by apply Forall2_app|done].
      * rewrite !bool_decide_eq_false_2 by congruence.
        exists new2. by split.
Qed.
End EntriesFacts.

(** The loop body on an annotation that carries every field. *)
Lemma enrich_annotation_full
    (http_get : nat -> url -> pydict -> http_outcome)
    (json_dumps : pyvalue -> pystr) (n : nat) (annotation : pydict)
    (items : list (pystr * pyvalue)) :
  searches_succeed http_get json_dumps ->
  complete annotation = true ->
  dict_get (lit "peco_elements") annotation = Some (PDict items) ->
  Forall (fun kv => In (fst kv) categories /\ exists texts, snd kv = PList texts)
    items ->
  exists annotation_d elements,
    enrich_annotation http_get json_dumps n annotation
      = Ok (annotation_d, (n + length (all_texts items))%nat) /\
    dict_keys annotation_d = output_fields /\
    dict_get (lit "url") annotation_d = dict_get (lit "doc_url") annotation /\
    dict_get (lit "peco_elements") annotation_d = Some (PDict elements) /\
    forall category, In category categories ->
      exists entries,
        dict_get category elements = Some (PList entries) /\
        Forall2 (entry_for http_get json_dumps) (texts_under category items)
          entries.
Proof.
  intros Hsearch Hc Hitems Hshape.
  pose proof (complete_fields annotation Hc) as Hf.
  destruct (Hf (lit "doc_title")) as [v1 E1];
    [repeat (first [left; reflexivity | right])|].
  destruct (Hf (lit "doc_lastauthorname")) as [v3 E3];
    [repeat (first [left; reflexivity | right])|].
  destruct (Hf (lit "doc_year")) as [v4 E4];
    [repeat (first [left; reflexivity | right])|].
  destruct (Hf (lit "doc_url")) as [v5 E5];
    [repeat (first [left; reflexivity | right])|].
  destruct (Hf (lit "doc_peco_section")) as [v6 E6];
    [repeat (first [left; reflexivity | right])|].
  destruct (Hf (lit "peco_statement")) as [v7 E7];
    [repeat (first [left; reflexivity | right])|].
  set (annotation_d :=
         [ (lit "doc_title", v1); (lit "doc_lastauthorname", v3);
           (lit "doc_year", v4); (lit "url", v5);
           (lit "doc_peco_section", v6); (lit "peco_statement", v7);
           (lit "peco_elements",
             PDict [ (lit "Population", PList []); (lit "Exposure", PList []);
                     (lit "Comparator", PList []); (lit "Outcome", PList []) ]) ]).
  assert (H4 : four_lists annotation_d).
  { eexists. split; [reflexivity|]. split; [reflexivity|].
    repeat (apply List.Forall_cons; [by eexists|]). constructor. }
  destruct (enrich_elements_entries http_get json_dumps Hsearch items n
              annotation_d Hshape H4) as (d & Hd & H4d & Hk & Hentries).
  destruct H4d as (elements & Hel & Hkeys & Hlists).
  assert (Hurl : dict_get (lit "url") d = dict_get (lit "doc_url") annotation).
  { destruct (enrich_elements_ok http_get json_dumps Hsearch items n
                annotation_d Hshape H4) as (d' & n' & Hd' & _ & Hframe).
    rewrite Hd in Hd'. injection Hd' as <- _.
    rewrite Hframe by done. by rewrite E5. }
  exists d, elements. split; [|split; [exact Hk|split; [exact Hurl|split; [exact Hel|]]]].
  - unfold enrich_annotation.
    rewrite (getitem_Some _ _ _ E1), (getitem_Some _ _ _ Hitems),
      (getitem_Some _ _ _ E3), (getitem_Some _ _ _ E4),
      (getitem_Some _ _ _ E5), (getitem_Some _ _ _ E6),
      (getitem_Some _ _ _ E7).
    rewrite !bind_Ok. cbn [py_items]. rewrite bind_Ok. exact Hd.
  - intros category Hcat.
    destruct (Hentries category) as (new & Hnew & Heq).
    destruct (four_lists_entries d category) as (elements' & Hel' & Hcur);
      [by exists elements|done|].
    rewrite Hel in Hel'. injection Hel' as <-.
    exists new. split; [|exact Hnew].
    rewrite Hcur, Heq. do 2 f_equal.
    unfold entries_under, annotation_d. cbn [dict_get].
    destruct Hcat as [<-|[<-|[<-|[<-|[]]]]]; vm_compute; reflexivity.
Qed.


(** X12: on an annotation that carries every field, and whose searches all
    hand back results, the loop makes one search per phrase and files, under
    each of the four categories, one entry per phrase of that category, in
    the annotation's order: the phrase itself with the matches of a search
    made for it. *)
Theorem enrich_annotation_entries
    (http_get : nat -> url -> pydict -> http_outcome)
    (json_dumps : pyvalue -> pystr) (n : nat) (annotation : pydict)
    (items : list (pystr * pyvalue)) :
  searches_succeed http_get json_dumps ->
  complete annotation = true ->
  dict_get (lit "peco_elements") annotation = Some (PDict items) ->
  Forall (fun kv => In (fst kv) categories /\ exists texts, snd kv = PList texts)
    items ->
  exists annotation_d elements,
    enrich_annotation http_get json_dumps n annotation
      = Ok (annotation_d, (n + length (all_texts items))%nat) /\
    dict_get (lit "peco_elements") annotation_d = Some (PDict elements) /\
    forall category, In category categories ->
      exists entries,
        dict_get category elements = Some (PList entries) /\
        Forall2 (entry_for http_get json_dumps) (texts_under category items)
          entries.
Proof.
  intros Hsearch Hc Hitems Hshape.
  destruct (enrich_annotation_full http_get json_dumps n annotation items
              Hsearch Hc Hitems Hshape)
    as (d & elements & Hd & _ & _ & Hel & Hentries).
  by exists d, elements.
Qed.

Lemma enrich_annotation_entries_witness :
  exists annotation_d elements,
    enrich_annotation Scenario.healthy Scenario.dumps 7 complete_annotation
      = Ok (annotation_d, 8%nat) /\
    dict_get (lit "peco_elements") annotation_d = Some (PDict elements) /\
    forall category, In category categories ->
      exists entries,
        dict_get category elements = Some (PList entries) /\
        Forall2 (entry_for Scenario.healthy Scenario.dumps)
          (texts_under category
             [ (lit "Population", PList [PStr (lit "elderly adults")]) ])
          entries.
Proof.
  apply (enrich_annotation_entries Scenario.healthy Scenario.dumps 7
           complete_annotation
           [ (lit "Population", PList [PStr (lit "elderly adults")]) ]).
  - intros n text. eexists _, _. reflexivity.
  - vm_compute. reflexivity.
  - vm_compute. reflexivity.
  - apply List.Forall_cons; [|constructor].
    split; [left; reflexivity|by eexists].
Defined.

(** X13: the record built for an annotation has exactly the seven keys
    [doc_title], [doc_lastauthorname], [doc_year], [url],
    [doc_peco_section], [peco_statement] and [peco_elements], in this
    order: the annotation's [doc_url] is stored as [url], and its
    [doc_annotator_comments] is not copied. *)
Theorem enrich_annotation_output_fields
    (http_get : nat -> url -> pydict -> http_outcome)
    (json_dumps : pyvalue -> pystr) (n : nat) (annotation : pydict)
    (items : list (pystr * pyvalue)) :
  searches_succeed http_get json_dumps ->
  complete annotation = true ->
  dict_get (lit "peco_elements") annotation = Some (PDict items) ->
  Forall (fun kv => In (fst kv) categories /\ exists texts, snd kv = PList texts)
    items ->
  exists annotation_d n',
    enrich_annotation http_get json_dumps n annotation = Ok (annotation_d, n') /\
    dict_keys annotation_d = output_fields /\
    dict_get (lit "url") annotation_d = dict_get (lit "doc_url") annotation /\
    dict_get (lit "doc_url") annotation_d = None /\
    dict_get (lit "doc_annotator_comments") annotation_d = None.
Proof.
  intros Hsearch Hc Hitems Hshape.
  destruct (enrich_annotation_full http_get json_dumps n annotation items
              Hsearch Hc Hitems Hshape) as (d & elements & Hd & Hk & Hurl & _).
  assert (Habsent : forall k, ~ In k output_fields -> dict_get k d = None).
  { intros k Hnot. destruct (dict_get k d) as [v|] eqn:E; [|done].
    exfalso. apply Hnot. rewrite <- Hk.
    apply dict_get_In in E. unfold dict_keys.
    apply (in_map fst) in E. exact E. }
  eexists d, _. split; [exact Hd|]. split; [exact Hk|]. split; [exact Hurl|].
  split; apply Habsent; unfold output_fields; cbn; intuition discriminate.
Qed.

Lemma enrich_annotation_output_fields_witness :
  exists annotation_d n',
    enrich_annotation Scenario.healthy Scenario.dumps 0 complete_annotation
      = Ok (annotation_d, n') /\
    dict_keys annotation_d = output_fields /\
    dict_get (lit "url") annotation_d = dict_get (lit "doc_url") complete_annotation /\
    dict_get (lit "doc_url") annotation_d = None /\
    dict_get (lit "doc_annotator_comments") annotation_d = None.
Proof.
  apply (enrich_annotation_output_fields Scenario.healthy Scenario.dumps 0
           complete_annotation
           [ (lit "Population", PList [PStr (lit "elderly adults")]) ]).
  - intros n text. eexists _, _. reflexivity.
  - vm_compute. reflexivity.
  - vm_compute. reflexivity.
  - apply List.Forall_cons; [|constructor].
    split; [left; reflexivity|by eexists].
Defined.

(** ** Answers of an unexpected shape *)

Lemma concept_of_non_object (term_info : pyvalue) :
  is_object term_info = false -> concept_of term_info = Raise AttributeError.
Proof. by destruct term_info. Qed.

Lemma mapM_concept_of_non_object (docs : list pyvalue) :
  existsb (fun term_info => negb (is_object term_info)) docs = true ->
  mapM concept_of docs = Raise AttributeError.
Proof.
  induction docs as [|term_info docs IH]; [done|].
  cbn [existsb mapM]. destruct (is_object term_info) eqn:E; cbn [negb orb].
  - intros Hrest. destruct term_info; try done.
    destruct (concept_of_built d) as (concept & -> & _).
    by rewrite bind_Ok, (IH Hrest).
  - intros _. by rewrite concept_of_non_object.
Qed.

(** X14: when the search answers with an object that has no [response]
    member, or whose [response] has no [docs] member, the retriever hands
    back the serialised answer with an empty list of matches: the phrase
    gets an entry without matches and the loop goes on. *)
Theorem retrieve_without_docs
    (http_get : nat -> url -> pydict -> http_outcome)
    (json_dumps : pyvalue -> pystr) (n : nat) (term : pyvalue)
    (numresults : Z) (ontology : pyvalue)
    (status_code : Z) (body : dict pyvalue) :
  http_get n SearchUrl (search_params term numresults ontology)
    = Response status_code (Some (PDict body)) ->
  bad_status status_code = false ->
  lacks_nested (lit "response") (lit "docs") body ->
  retrieve_ontology_matches http_get json_dumps n term numresults ontology
    = Ok (Some (json_dumps (PDict body), [])).
Proof.
  intros Hget Hstatus Hlacks.
  unfold retrieve_ontology_matches, http_json. rewrite Hget, Hstatus.
  cbn [py_get]. rewrite bind_Ok.
  destruct Hlacks as [-> | (nested & -> & Hdocs)].
  - reflexivity.
  - cbn [py_get]. by rewrite Hdocs.
Qed.

Lemma retrieve_without_docs_witness :
  retrieve_ontology_matches
    (fun _ _ _ => Response 200 (Some (PDict [ (lit "response", PDict []) ])))
    Scenario.dumps 0 (PStr (lit "elderly adults")) NUMRESULTS PNone
  = Ok (Some (Scenario.dumps (PDict [ (lit "response", PDict []) ]), [])).
Proof.
  apply (retrieve_without_docs _ Scenario.dumps 0 (PStr (lit "elderly adults"))
           NUMRESULTS PNone 200 [ (lit "response", PDict []) ]).
  - reflexivity.
  - reflexivity.
  - right. exists []. by split.
Defined.

(** X15: when the search answers with a body that is no object, or with a
    list of documents one of which is no object, the retriever raises
    [AttributeError]; the [except] clause, which only catches
    [RequestException], lets it through. *)
Theorem retrieve_raises_on_non_object
    (http_get : nat -> url -> pydict -> http_outcome)
    (json_dumps : pyvalue -> pystr) (n : nat) (term : pyvalue)
    (numresults : Z) (ontology : pyvalue)
    (status_code : Z) (results : pyvalue) :
  http_get n SearchUrl (search_params term numresults ontology)
    = Response status_code (Some results) ->
  bad_status status_code = false ->
  (is_object results = false \/
   exists body response docs,
     results = PDict body /\
     dict_get (lit "response") body = Some (PDict response) /\
     dict_get (lit "docs") response = Some (PList docs) /\
     existsb (fun term_info => negb (is_object term_info)) docs = true) ->
  retrieve_ontology_matches http_get json_dumps n term numresults ontology
    = Raise AttributeError.
Proof.
  intros Hget Hstatus Hshape.
  unfold retrieve_ontology_matches, http_json. rewrite Hget, Hstatus.
  destruct Hshape as [Hno | (body & response & docs & -> & Hr & Hd & Hex)].
  - by destruct results.
  - cbn [py_get]. rewrite Hr, bind_Ok. cbn [py_get]. rewrite Hd, bind_Ok.
    cbn [py_iter]. rewrite bind_Ok.
    by rewrite (mapM_concept_of_non_object docs Hex).
Qed.

Lemma retrieve_raises_on_non_object_witness :
  retrieve_ontology_matches
    (fun _ _ _ => Response 200 (Some (PList [])))
    Scenario.dumps 0 (PStr (lit "elderly adults")) NUMRESULTS PNone
  = Raise AttributeError /\
  retrieve_ontology_matches
    (fun _ _ _ =>
       Response 200
         (Some (PDict [ (lit "response",
                          PDict [ (lit "docs",
                                    PList [PDict Scenario.raw_doc; PNone]) ]) ])))
    Scenario.dumps 0 (PStr (lit "elderly adults")) NUMRESULTS PNone
  = Raise AttributeError.
Proof.
  split.
  - apply (retrieve_raises_on_non_object _ Scenario.dumps 0
             (PStr (lit "elderly adults")) NUMRESULTS PNone 200 (PList []));
      [reflexivity|reflexivity|by left].
  - eapply (retrieve_raises_on_non_object _ Scenario.dumps 0
              (PStr (lit "elderly adults")) NUMRESULTS PNone 200);
      [reflexivity|reflexivity|].
    right. eexists _, _, _. split; [reflexivity|]. split; [reflexivity|].
    split; reflexivity.
Defined.

(** X16: when the ancestors request answers with an object that has no
    [_embedded] member, or whose [_embedded] has no [terms] member, the
    fetch hands back the empty list: the concept counts as having no
    ancestor. *)
Theorem get_term_ancestors_without_terms
    (http_get : nat -> url -> pydict -> http_outcome) (n : nat)
    (ontology iri : pyvalue) (inner iri_encoded : pystr)
    (status_code : Z) (body : dict pyvalue) :
  quote iri (lit "") = Ok inner ->
  quote (PStr inner) (lit "/") = Ok iri_encoded ->
  http_get n (AncestorsUrl ontology iri_encoded) [ (lit "lang", PStr (lit "en")) ]
    = Response status_code (Some (PDict body)) ->
  bad_status status_code = false ->
  lacks_nested (lit "_embedded") (lit "terms") body ->
  get_term_ancestors http_get n ontology iri = Ok (AncList []).
Proof.
  intros Hq1 Hq2 Hget Hstatus Hlacks.
  unfold get_term_ancestors, http_json.
  rewrite Hq1, bind_Ok, Hq2, bind_Ok, Hget, Hstatus.
  cbn [py_get]. rewrite bind_Ok.
  destruct Hlacks as [-> | (nested & -> & Hterms)].
  - reflexivity.
  - cbn [py_get]. by rewrite Hterms.
Qed.

Lemma get_term_ancestors_without_terms_witness :
  get_term_ancestors (fun _ _ _ => Response 200 (Some (PDict []))) 0
    (PStr (lit "efo")) (PStr (lit "http://www.ebi.ac.uk/efo/EFO_0000400"))
  = Ok (AncList []).
Proof.
  eapply (get_term_ancestors_without_terms _ 0 (PStr (lit "efo"))
            (PStr (lit "http://www.ebi.ac.uk/efo/EFO_0000400")) _ _ 200 []).
  - vm_compute. reflexivity.
  - vm_compute. reflexivity.
  - reflexivity.
  - reflexivity.
  - by left.
Defined.

(** ** Trimming and the labels *)

Lemma lstrip_split (s : pystr) :
  exists ws, s = ws ++ lstrip s /\ Forall (fun c => isspace c = true) ws.
Proof.
  induction s as [|c s (ws & Hs & Hws)]; cbn [lstrip].
  - by exists [].
  - destruct (isspace c) eqn:E.
    + exists (c :: ws). split; [cbn; congruence|by constructor].
    + by exists [].
Qed.

Lemma strip_split (s : pystr) :
  exists before after,
    s = before ++ strip s ++ after /\
    Forall (fun c => isspace c = true) before /\
    Forall (fun c => isspace c = true) after.
Proof.
  destruct (lstrip_split s) as (before & Hs & Hbefore).
  destruct (lstrip_split (rev (lstrip s))) as (ws & Hr & Hws).
  exists before, (rev ws). split; [|split; [done|]].
  - unfold strip. rewrite <- rev_app_distr, <- Hr, rev_involutive. exact Hs.
  - rewrite List.Forall_forall in Hws |- *. intros c Hc.
    apply Hws. by apply in_rev.
Qed.

Lemma contains_iff (needle hay : pystr) :
  contains needle hay = true <-> exists pre post, hay = pre ++ needle ++ post.
Proof.
  split; [apply contains_inv|]. intros (pre & post & ->). apply contains_app.
Qed.

Lemma contains_leading_spaces (c : char) (needle ws hay : pystr) :
  isspace c = false ->
  Forall (fun x => isspace x = true) ws ->
  contains (c :: needle) (ws ++ hay) = contains (c :: needle) hay.
Proof.
  intros Hc Hws. induction Hws as [|x ws Hx _ IH]; [done|].
  cbn [app contains startswith]. rewrite IH.
  destruct (N.eqb_spec c x) as [->|]; [congruence|done].
Qed.

Lemma contains_trailing_spaces (c : char) (needle hay ws : pystr) :
  isspace c = false ->
  Forall (fun x => isspace x = true) ws ->
  contains (needle ++ [c]) (hay ++ ws) = contains (needle ++ [c]) hay.
Proof.
  intros Hc Hws. apply eq_true_iff_eq. rewrite !contains_iff. split.
  - intros (pre & post & Heq).
    assert (Hsplit : hay ++ ws = (pre ++ needle) ++ c :: post).
    { rewrite Heq. by rewrite <- !app_assoc. }
    apply app_eq_app in Hsplit as [l [[Hhay Hpost]|[Hpre Hws']]].
    + destruct l as [|x l]; cbn in Hpost.
      * exfalso. rewrite List.Forall_forall in Hws.
        specialize (Hws c). rewrite <- Hpost in Hws.
        rewrite Hws in Hc; [done|by left].
      * injection Hpost as <- ->.
        exists pre, l. rewrite Hhay. by rewrite <- !app_assoc.
    + exfalso. rewrite List.Forall_forall in Hws.
      specialize (Hws c). rewrite Hws' in Hws.
      rewrite Hws in Hc; [done|]. apply in_or_app. right. by left.
  - intros (pre & post & ->). exists pre, (post ++ ws).
    by rewrite <- !app_assoc.
Qed.

Lemma contains_strip (first last : char) (middle s : pystr) :
  isspace first = false -> isspace last = false ->
  contains (first :: middle ++ [last]) (strip s)
  = contains (first :: middle ++ [last]) s.
Proof.
  intros Hfirst Hlast.
  destruct (strip_split s) as (before & after & Hs & Hbefore & Hafter).
  rewrite Hs at 2.
  rewrite contains_leading_spaces by done.
  change (first :: middle ++ [last]) with ((first :: middle) ++ [last]).
  by rewrite contains_trailing_spaces.
Qed.

(** X17: trimming the first cell's text changes nothing to the label
    tests: each of the seven labels, which begin and end with a letter, is
    found in the trimmed text exactly when it is found in the text. *)
Theorem label_test_ignores_strip (label s : pystr) :
  In label row_labels ->
  contains label (strip s) = contains label s.
Proof.
  unfold row_labels. intros Hin.
  destruct Hin as [<-|[<-|[<-|[<-|[<-|[<-|[<-|[]]]]]]]];
    match goal with
    | |- contains ?l _ = _ =>
        let l' := eval vm_compute in l in change l with l'
    end;
    match goal with
    | |- contains (?a :: ?rest) _ = _ =>
        let m := eval vm_compute in (removelast rest) in
        let z := eval vm_compute in (List.last rest 0%N) in
        change (a :: rest) with (a :: m ++ [z])
    end;
    by apply contains_strip.
Qed.

Lemma label_test_ignores_strip_witness :
  contains (lit "PECO statement") (strip (lit "  PECO statement (draft) "))
  = contains (lit "PECO statement") (lit "  PECO statement (draft) ").
Proof.
  apply (label_test_ignores_strip (lit "PECO statement")
           (lit "  PECO statement (draft) ")).
  do 6 right. left. reflexivity.
Defined.

(** ** The colour handed to the run scan *)

(** X18: a colour handed back by [get_highlight_color] is always truthy,
    so that the test [if color and text] of the run scan rejects a run
    only for having no colour or no text. *)
Theorem get_highlight_color_truthy (run : Run) :
  color_truthy (get_highlight_color run)
  = match get_highlight_color run with Some _ => true | None => false end.
Proof.
  unfold get_highlight_color.
  destruct (highlight_color (font run)) as [i|];
    [destruct (index_truthy i) eqn:E|];
    try (destruct (color (font run)) as [[[c|]]|]); cbn; done.
Qed.

(** ** A search that fails after others succeeded *)

Lemma enrich_texts_prefix
    (http_get : nat -> url -> pydict -> http_outcome)
    (json_dumps : pyvalue -> pystr) (before : list pyvalue) (n : nat)
    (annotation_d : pydict) (peco_element : pystr) :
  four_lists annotation_d ->
  In peco_element categories ->
  searches_succeed_for http_get json_dumps n before ->
  exists d',
    four_lists d' /\
    forall rest,
      enrich_texts http_get json_dumps n annotation_d peco_element (before ++ rest)
      = enrich_texts http_get json_dumps (n + length before) d' peco_element rest.
Proof.
  revert n annotation_d.
  induction before as [|text before IH]; intros n d Hd Hcat Hsucc.
  - exists d. split; [done|]. intros rest. by rewrite Nat.add_0_r.
  - destruct Hsucc as [(js & ms & Hr) Hrest].
    destruct (append_element_ok d peco_element
                (PDict [ (lit "text", text);
                         (lit "matches", PList (List.map PDict ms)) ]) Hd Hcat)
      as (d1 & H1 & Hd1 & _).
    destruct (IH (S n) d1 Hd1 Hcat Hrest) as (d2 & Hd2 & Heq).
    exists d2. split; [done|]. intros rest.
    cbn [app enrich_texts length]. rewrite Hr, bind_Ok, H1, bind_Ok.
    rewrite Heq. by rewrite Nat.add_succ_r.
Qed.

(** X19: within the phrases of a category, a search that fails in
    transport or with a 4xx/5xx status stops the loop with a [TypeError]
    also when the searches made for the earlier phrases succeeded: the
    entries built so far are lost with the rest. *)
Theorem enrich_texts_stops_at_failed_search
    (http_get : nat -> url -> pydict -> http_outcome)
    (json_dumps : pyvalue -> pystr) (n : nat) (annotation_d : pydict)
    (peco_element : pystr) (before : list pyvalue) (text : pyvalue)
    (rest : list pyvalue) :
  four_lists annotation_d ->
  In peco_element categories ->
  searches_succeed_for http_get json_dumps n before ->
  request_failed
    (http_get (n + length before)%nat SearchUrl
       (search_params text NUMRESULTS PNone)) ->
  enrich_texts http_get json_dumps n annotation_d peco_element
    (before ++ text :: rest) = Raise TypeError.
Proof.
  intros Hd Hcat Hsucc Hfail.
  destruct (enrich_texts_prefix http_get json_dumps before n annotation_d
              peco_element Hd Hcat Hsucc) as (d' & _ & ->).
  destruct (http_json_failed _ _ _ _ Hfail) as [e He].
  cbn [enrich_texts]. unfold retrieve_ontology_matches. by rewrite He.
Qed.

Lemma enrich_texts_stops_at_failed_search_witness :
  enrich_texts Scenario.flaky Scenario.dumps 0
    [ (lit "peco_elements",
        PDict [ (lit "Population", PList []); (lit "Exposure", PList []);
                (lit "Comparator", PList []); (lit "Outcome", PList []) ]) ]
    (lit "Population")
    ([PStr (lit "elderly adults")] ++ PStr (lit "frail adults") :: [])
  = Raise TypeError.
Proof.
  apply (enrich_texts_stops_at_failed_search Scenario.flaky Scenario.dumps 0).
  - eexists. split; [reflexivity|]. split; [reflexivity|].
    repeat (apply List.Forall_cons; [by eexists|]). constructor.
  - left. reflexivity.
  - split; [|exact I]. eexists _, _. reflexivity.
  - exact I.
Defined.

(** ** An annotation without phrases *)

(** X20: an annotation that carries every field and no phrase is enriched
    without any request: whatever the service does, the loop builds its
    record, with the metadata and four empty lists. *)
Theorem enrich_annotation_without_phrases (n : nat) (annotation : pydict) :
  complete annotation = true ->
  dict_get (lit "peco_elements") annotation = Some (PDict []) ->
  exists annotation_d,
    (forall http_get json_dumps,
        enrich_annotation http_get json_dumps n annotation
        = Ok (annotation_d, n)) /\
    enriched_from annotation annotation_d /\
    forall category, In category categories ->
                     entries_under category annotation_d = [].
Proof.
  intros Hc Hitems. pose proof (complete_fields annotation Hc) as Hf.
  destruct (Hf (lit "doc_title")) as [v1 E1];
    [repeat (first [left; reflexivity | right])|].
  destruct (Hf (lit "doc_lastauthorname")) as [v3 E3];
    [repeat (first [left; reflexivity | right])|].
  destruct (Hf (lit "doc_year")) as [v4 E4];
    [repeat (first [left; reflexivity | right])|].
  destruct (Hf (lit "doc_url")) as [v5 E5];
    [repeat (first [left; reflexivity | right])|].
  destruct (Hf (lit "doc_peco_section")) as [v6 E6];
    [repeat (first [left; reflexivity | right])|].
  destruct (Hf (lit "peco_statement")) as [v7 E7];
    [repeat (first [left; reflexivity | right])|].
  eexists. split; [|split].
  - intros http_get json_dumps. unfold enrich_annotation.
    rewrite (getitem_Some _ _ _ E1), (getitem_Some _ _ _ Hitems),
      (getitem_Some _ _ _ E3), (getitem_Some _ _ _ E4),
      (getitem_Some _ _ _ E5), (getitem_Some _ _ _ E6),
      (getitem_Some _ _ _ E7).
    rewrite !bind_Ok. reflexivity.
  - unfold enriched_from. rewrite E1, E3, E4, E5, E6, E7.
    repeat (split; [reflexivity|]).
    eexists. split; [reflexivity|]. split; [reflexivity|].
    repeat (apply List.Forall_cons; [by eexists|]). constructor.
  - intros category Hcat.
    destruct Hcat as [<-|[<-|[<-|[<-|[]]]]]; reflexivity.
Qed.

Lemma enrich_annotation_without_phrases_witness :
  exists annotation_d,
    (forall http_get json_dumps,
        enrich_annotation http_get json_dumps 3
          (dict_set (lit "peco_elements") (PDict []) complete_annotation)
        = Ok (annotation_d, 3%nat)) /\
    enriched_from
      (dict_set (lit "peco_elements") (PDict []) complete_annotation) annotation_d /\
    forall category, In category categories ->
                     entries_under category annotation_d = [].
Proof.
  apply (enrich_annotation_without_phrases 3
           (dict_set (lit "peco_elements") (PDict []) complete_annotation)).
  - vm_compute. reflexivity.
  - vm_compute. reflexivity.
Defined.

(** ** When the retriever hands back [None] *)


